(** * Component-testing preset and remote registration

    A shallow embedding of
    [packages/react/plugins/component-testing/index.ts]
    ([nxComponentTestingPreset] and its helpers) and of the remote
    registration generator step ([checkIsCommaNeeded], [addRemoteToHost]
    and its helpers), with the properties of their behaviour.

    Conventions.
    - A JavaScript string is a [string]: each [ascii] stands for one
      UTF-16 code unit, so the strings covered are those whose code units
      are below 256.
    - A call that may throw returns a [result]; code that works on the
      generator [Tree] runs in the monad [M], which threads the tree and
      keeps the tree reached when an exception is thrown (nothing is
      rolled back).
    - Functions imported from other packages are fields of a record of
      collaborators, over which every definition is parameterised. *)

From Stdlib Require Import ZArith Ascii String List Bool Lia.
From stdpp Require Import base option gmap strings list fin_maps pretty.

Set Warnings "-register-all".

Open Scope string_scope.
Open Scope Z_scope.

(** ** JavaScript strings *)

Module Js.

Definition nl : string := String (ascii_of_nat 10) "".

(** The double-quote character. *)
Definition dq : string := String (ascii_of_nat 34) "".

Fixpoint take (n : nat) (s : string) : string :=
  match n, s with
  | S n', String c s' => String c (take n' s')
  | _, _ => ""
  end.

Fixpoint drop (n : nat) (s : string) : string :=
  match n, s with
  | S n', String _ s' => drop n' s'
  | _, _ => s
  end.

(** [String.prototype.startsWith]. *)
Definition startsWith (p s : string) : bool := String.prefix p s.

(** [String.prototype.endsWith]. *)
Definition endsWith (suffix s : string) : bool :=
  (String.length suffix <=? String.length s)%nat
  && String.eqb (drop (String.length s - String.length suffix) s) suffix.

(** [String.prototype.indexOf]: the first position at which [needle]
    occurs, and [-1] when there is none. *)
Fixpoint indexOf_from (needle s : string) (i : Z) : Z :=
  if startsWith needle s then i
  else match s with
       | "" => -1
       | String _ s' => indexOf_from needle s' (i + 1)
       end.

Definition indexOf (needle s : string) : Z := indexOf_from needle s 0.

(** [String.prototype.includes]. *)
Fixpoint includes (needle s : string) : bool :=
  startsWith needle s
  || match s with
     | "" => false
     | String _ s' => includes needle s'
     end.

(** The relative-index rule of [String.prototype.slice]: a negative
    index counts from the end, and the result is clamped to the
    string. *)
Definition clamp (len : nat) (i : Z) : nat :=
  if i <? 0 then Z.to_nat (Z.max 0 (Z.of_nat len + i))
  else Z.to_nat (Z.min i (Z.of_nat len)).

(** [s.slice(b, e)]. *)
Definition slice (s : string) (b e : Z) : string :=
  let from := clamp (String.length s) b in
  let to := clamp (String.length s) e in
  take (to - from) (drop from s).

(** [s.slice(b)]. *)
Definition slice_from (s : string) (b : Z) : string :=
  drop (clamp (String.length s) b) s.

(** The code units below 256 that the regular-expression class [\s]
    matches: TAB, LF, VT, FF, CR, SPACE and NO-BREAK SPACE. *)
Definition isWhiteSpace (c : ascii) : bool :=
  let n := nat_of_ascii c in
  ((9 <=? n) && (n <=? 13) || (n =? 32) || (n =? 160))%nat.

(** [s.replace(/\s+/g, '')]: every maximal run of white space is
    replaced by the empty string, so every white-space code unit goes
    and the others stay in order. *)
Fixpoint removeWhiteSpace (s : string) : string :=
  match s with
  | "" => ""
  | String c s' =>
      if isWhiteSpace c then removeWhiteSpace s'
      else String c (removeWhiteSpace s')
  end.

(** [s.replace(pattern, '')] for a string pattern: the first occurrence
    of [pattern] is removed; the empty pattern matches at position 0
    and removes nothing. *)
Fixpoint removeFirst (pattern s : string) : string :=
  if startsWith pattern s then drop (String.length pattern) s
  else match s with
       | "" => ""
       | String c s' => String c (removeFirst pattern s')
       end.

(** Template-literal conversion of a boolean. *)
Definition ofBool (b : bool) : string := if b then "true" else "false".

(** Template-literal conversion of a possibly undefined string. *)
Definition ofOptString (o : option string) : string :=
  match o with Some s => s | None => "undefined" end.

(** String concatenation with a value that may be [null]. *)
Definition ofNullable (o : option string) : string :=
  match o with Some s => s | None => "null" end.

(** Truthiness of a possibly undefined string. *)
Definition truthy (o : option string) : bool :=
  match o with Some s => negb (String.eqb s "") | None => false end.

End Js.

(** ** The comma test of the static-host splice *)

Definition checkIsCommaNeeded (mfRemoteText : string) : bool :=
  let remoteText := Js.removeWhiteSpace mfRemoteText in
  if negb (Js.endsWith ",]" remoteText)
  then (if String.eqb remoteText "[]" then false else true)
  else false.


(** ** Exceptions and results *)

Inductive exn :=
  | Error (message : string)
  | TypeError (message : string).

Inductive result (A : Type) :=
  | Ok (a : A)
  | Throw (e : exn).
Arguments Ok {A} a.
Arguments Throw {A} e.



(** ** JSON values and object spread *)

(** Numbers are the integers, which is what the manifests and option
    bags of a workspace hold. *)
Inductive json :=
  | JNull
  | JBool (b : bool)
  | JNumber (n : Z)
  | JString (s : string)
  | JArray (items : list json)
  | JObject (members : gmap string json).

Definition indexKey (i : nat) : string := pretty (N.of_nat i).

Fixpoint codeUnits (s : string) : list json :=
  match s with
  | "" => []
  | String c s' => JString (String c "") :: codeUnits s'
  end.

Definition indexed (l : list json) : gmap string json :=
  list_to_map (imap (fun i v => (indexKey i, v)) l).

(** The own enumerable properties that [{...v}] copies. *)
Definition spread (v : json) : gmap string json :=
  match v with
  | JObject m => m
  | JArray l => indexed l
  | JString s => indexed (codeUnits s)
  | JNull | JBool _ | JNumber _ => ∅
  end.

(** ** Workspace data *)

Record TargetConfiguration := {
  executor : option string;
  options : gmap string json;
  configurations : gmap string (gmap string json);
}.

Record ProjectConfiguration := {
  name : option string;
  root : string;
  sourceRoot : option string;
  targets : option (gmap string TargetConfiguration);
}.

(** ** The generator tree *)

Inductive event :=
  | EExists (path : string)
  | ERead (path : string)
  | EWrite (path content : string)
  | EReadProject (project : option string).

Definition isWrite (e : event) : bool :=
  match e with EWrite _ _ => true | _ => false end.

(** The files of the tree by path, and the journal of the operations
    done on it, oldest first. Paths are compared as written. *)
Record Tree := mkTree {
  files : gmap string string;
  journal : list event;
}.

Definition M (A : Type) : Type := Tree -> result A * Tree.

Definition ret {A} (a : A) : M A := fun t => (Ok a, t).

Definition throw {A} (e : exn) : M A := fun t => (Throw e, t).

Definition bind {A B} (m : M A) (k : A -> M B) : M B :=
  fun t =>
    match m t with
    | (Ok a, t') => k a t'
    | (Throw e, t') => (Throw e, t')
    end.

Definition lift {A} (r : result A) : M A := fun t => (r, t).

Declare Scope tree_scope.
Delimit Scope tree_scope with tree.
Notation "x <- c ;; k" := (bind c (fun x => k))
  (at level 100, c at next level, right associativity) : tree_scope.
Notation "c ;;; k" := (bind c (fun _ => k))
  (at level 100, right associativity) : tree_scope.
Open Scope tree_scope.

Definition record (e : event) (t : Tree) : Tree :=
  {| files := files t; journal := journal t ++ [e] |}.

(** [tree.exists(path)]. *)
Definition tree_exists (path : string) : M bool :=
  fun t => (Ok (bool_decide (is_Some (files t !! path))), record (EExists path) t).

(** [tree.read(path, 'utf-8')]: [null] when there is no such file. *)
Definition tree_read (path : string) : M (option string) :=
  fun t => (Ok (files t !! path), record (ERead path) t).

(** [tree.write(path, content)]. *)
Definition tree_write (path content : string) : M unit :=
  fun t =>
    (Ok tt, {| files := <[path := content]> (files t);
               journal := journal t ++ [EWrite path content] |}).

(** A method call on the value read: a [TypeError] on [null]. *)
Definition nonNull (o : option string) : M string :=
  match o with
  | Some s => ret s
  | None => throw (TypeError "Cannot read properties of null")
  end.

(** ** Generator options *)

Inductive MfType := mfHost | mfRemote.

Record Schema := {
  mfType : option MfType;
  appName : string;
  host : option string;
  port : option N;
  standalone : bool;
}.

Inductive FederationType := dynamic | static.

(** The array literal found by the structural query: where it ends in
    the file and its text. *)
Record ArrayLiteralExpression := {
  getEnd : Z;
  getText : string;
}.

(** ** Collaborators of the registrar *)

Record Devkit := {
  (** [joinPathFragments] on string fragments. *)
  joinPathFragments : list string -> string;
  (** [readProjectConfiguration], as a function of the files. *)
  projectConfigurationOf :
    gmap string string -> option string -> result ProjectConfiguration;
  (** [names(n).className]. *)
  className : string -> string;
  (** [parseJson] and [serializeJson]. *)
  parseJson : string -> result json;
  serializeJson : json -> string;
  (** [tsquery(tsquery.ast(text), 'Identifier[name=remotes] ~
      ArrayLiteralExpression', ...)[0]]: the first match, if any. *)
  remotesArray : option string -> result (option ArrayLiteralExpression);
  (** The text edits of [insertImport], [addRoute] and
      [addStandaloneRoute]. *)
  insertImportText : string -> string -> string -> result string;
  addRouteText : string -> string -> result string;
  addStandaloneRouteText : string -> string -> result string;
}.

(** ** The remote registrar *)

Section Registrar.

Variable dk : Devkit.

(** [joinPathFragments(first, rest)] where [first] may be undefined:
    joining rejects a fragment that is not a string. *)
Definition joinPath (first : option string) (rest : string) : M string :=
  match first with
  | Some f => ret (joinPathFragments dk [f; rest])
  | None => throw (TypeError "The path argument must be of type string")
  end.

Definition readProjectConfiguration (project : option string)
  : M ProjectConfiguration :=
  fun t => (projectConfigurationOf dk (files t) project,
            record (EReadProject project) t).

(** Modelled from the spec: [updateJson] of the devkit is not among the
    sources. It reads the JSON file at [path] (failing when the file is
    missing or does not parse), applies [updater] to the value and
    writes the serialised result back to [path]. *)
Definition updateJson (path : string) (updater : json -> json) : M unit :=
  present <- tree_exists path;;
  if negb present then throw (Error ("Cannot find " ++ path))
  else
    content <- tree_read path;;
    text <- nonNull content;;
    value <- lift (parseJson dk text);;
    tree_write path (serializeJson dk (updater value)).

(** Modelled from the spec: [insertImport] is not among the sources. It
    adds the import of [symbolName] from [moduleName] to the source
    text, writes the file and returns the updated source. *)
Definition insertImport (fileName source symbolName moduleName : string)
  : M string :=
  updated <- lift (insertImportText dk source symbolName moduleName);;
  tree_write fileName updated;;;
  ret updated.

(** Modelled from the spec: [addRoute] is not among the sources. It
    inserts the route into the routes of the module declared in the
    source text, writes the file and returns the updated source. *)
Definition addRoute (ngModulePath source route : string) : M string :=
  updated <- lift (addRouteText dk source route);;
  tree_write ngModulePath updated;;;
  ret updated.

(** Modelled from the spec: [addStandaloneRoute] is not among the
    sources. It inserts the route into the route array of the file at
    [routesFile] and writes the file. *)
Definition addStandaloneRoute (routesFile route : string) : M unit :=
  content <- tree_read routesFile;;
  text <- nonNull content;;
  updated <- lift (addStandaloneRouteText dk text route);;
  tree_write routesFile updated.

Definition determineHostFederationType (pathToMfManifest : string)
  : M FederationType :=
  present <- tree_exists pathToMfManifest;;
  ret (if present then dynamic else static).

Definition missingHostMessage (opts : Schema) : string :=
  "The selected host application, " ++ Js.ofOptString (host opts)
  ++ ", does not contain a module-federation.config.js or module-federation.manifest.json file. Are you sure it has been set up as a host application?".

Definition addRemoteToStaticHost (opts : Schema)
    (hostProject : ProjectConfiguration) : M unit :=
  let hostMFConfigPath :=
    joinPathFragments dk [root hostProject; "module-federation.config.js"] in
  missing <- (if String.eqb hostMFConfigPath "" then ret true
              else present <- tree_exists hostMFConfigPath;;
                   ret (negb present));;
  if (missing : bool) then throw (Error (missingHostMessage opts))
  else
    hostMFConfig <- tree_read hostMFConfigPath;;
    found <- lift (remotesArray dk hostMFConfig);;
    match found with
    | None => throw (TypeError "Cannot read properties of undefined")
    | Some mfRemotesNode =>
        let endOfPropertiesPos := getEnd mfRemotesNode - 1 in
        let isCommaNeeded := checkIsCommaNeeded (getText mfRemotesNode) in
        text <- nonNull hostMFConfig;;
        let updatedConfig :=
          Js.slice text 0 endOfPropertiesPos
          ++ (if isCommaNeeded then "," else "")
          ++ "'" ++ appName opts ++ "',"
          ++ Js.slice_from text endOfPropertiesPos in
        tree_write hostMFConfigPath updatedConfig
    end.

(** Template-literal conversion of the port. *)
Definition portText (opts : Schema) : string :=
  match port opts with
  | Some n => pretty n
  | None => "undefined"
  end.

Definition remoteUrl (opts : Schema) : string :=
  "http://localhost:" ++ portText opts.

(** The updater passed to [updateJson]:
    [{ ...manifest, [options.appName]: `http://localhost:${options.port}` }]. *)
Definition withRemote (opts : Schema) (manifest : json) : json :=
  JObject (<[appName opts := JString (remoteUrl opts)]> (spread manifest)).

Definition addRemoteToDynamicHost (opts : Schema)
    (pathToMfManifest : string) : M unit :=
  updateJson pathToMfManifest (withRemote opts).

Definition routePathName (opts : Schema) : string :=
  if standalone opts then "Routes" else "Module".

Definition routeToAdd (opts : Schema) (hostFederationType : FederationType)
  : string :=
  match hostFederationType with
  | dynamic =>
      "loadRemoteModule('" ++ appName opts ++ "', './"
      ++ routePathName opts ++ "')"
  | static => "import('" ++ appName opts ++ "/" ++ routePathName opts ++ "')"
  end.

Definition moduleRoute (opts : Schema) (ft : FederationType) : string :=
  "{" ++ Js.nl
  ++ "         path: '" ++ appName opts ++ "', " ++ Js.nl
  ++ "         loadChildren: () => " ++ routeToAdd opts ft
  ++ ".then(m => m.RemoteEntryModule)" ++ Js.nl
  ++ "     }".

Definition standaloneRoute (opts : Schema) (ft : FederationType) : string :=
  "{" ++ Js.nl
  ++ "    path: '" ++ appName opts ++ "'," ++ Js.nl
  ++ "    loadChildren: () => " ++ routeToAdd opts ft
  ++ ".then(m => m.RemoteRoutes)" ++ Js.nl
  ++ "    }".

Definition menuOpenTag : string :=
  "<ul class=" ++ Js.dq ++ "remote-menu" ++ Js.dq ++ ">".

Definition menuEntry (opts : Schema) : string :=
  "<li><a routerLink='" ++ appName opts ++ "'>"
  ++ className dk (appName opts) ++ "</a></li>" ++ Js.nl.

Definition hasMenu (appComponent : string) : bool :=
  Js.includes menuOpenTag appComponent && Js.includes "</ul>" appComponent.

Definition withMenuEntry (opts : Schema) (appComponent : string) : string :=
  let indexOfClosingMenuTag := Js.indexOf "</ul>" appComponent in
  Js.slice appComponent 0 indexOfClosingMenuTag
  ++ menuEntry opts
  ++ Js.slice_from appComponent indexOfClosingMenuTag.

(** The last part of [addLazyLoadedRouteToHostAppModule]: the menu of
    the host's app template. *)
Definition patchAppComponentTemplate (opts : Schema)
    (hostAppConfig : ProjectConfiguration) : M unit :=
  pathToAppComponentTemplate <-
    joinPath (sourceRoot hostAppConfig) "app/app.component.html";;
  read <- tree_read pathToAppComponentTemplate;;
  appComponent <- nonNull read;;
  if hasMenu appComponent
  then tree_write pathToAppComponentTemplate (withMenuEntry opts appComponent)
  else ret tt.

Definition pathToHostRootRouting (hostAppConfig : ProjectConfiguration)
    (isHostStandalone : bool) : string :=
  if isHostStandalone
  then Js.ofOptString (sourceRoot hostAppConfig) ++ "/bootstrap.ts"
  else Js.ofOptString (sourceRoot hostAppConfig) ++ "/app/app.module.ts".

Definition addLazyLoadedRouteToHostAppModule (opts : Schema)
    (hostFederationType : FederationType) : M unit :=
  hostAppConfig <- readProjectConfiguration (host opts);;
  bootstrapPath <- joinPath (sourceRoot hostAppConfig) "bootstrap.ts";;
  bootstrap <- tree_read bootstrapPath;;
  bootstrapText <- nonNull bootstrap;;
  let isHostStandalone := negb (Js.includes "bootstrapModule" bootstrapText) in
  let routingPath := pathToHostRootRouting hostAppConfig isHostStandalone in
  present <- tree_exists routingPath;;
  if negb present then ret tt
  else
    routing <- tree_read routingPath;;
    hostRootRoutingFile <- nonNull routing;;
    if negb (Js.includes "RouterModule.forRoot(" hostRootRoutingFile)
    then ret tt
    else
      sourceFile <-
        match hostFederationType with
        | dynamic =>
            insertImport routingPath hostRootRoutingFile
              "loadRemoteModule" "@nrwl/angular/mf"
        | static => ret hostRootRoutingFile
        end;;
      (if Js.includes "@NgModule" hostRootRoutingFile
       then addRoute routingPath sourceFile
              (moduleRoute opts hostFederationType);;; ret tt
       else addStandaloneRoute routingPath
              (standaloneRoute opts hostFederationType));;;
      patchAppComponentTemplate opts hostAppConfig.

Definition declarationLine (opts : Schema) : string :=
  Js.nl ++ "declare module '" ++ appName opts ++ "/"
  ++ routePathName opts ++ "';".

Definition isRemoteWithHost (opts : Schema) : bool :=
  match mfType opts with
  | Some mfRemote => Js.truthy (host opts)
  | _ => false
  end.

Definition addRemoteToHost (opts : Schema) : M unit :=
  if isRemoteWithHost opts then
    hostProject <- readProjectConfiguration (host opts);;
    pathToMFManifest <-
      joinPath (sourceRoot hostProject)
        "assets/module-federation.manifest.json";;
    hostFederationType <- determineHostFederationType pathToMFManifest;;
    match hostFederationType with
    | static => addRemoteToStaticHost opts hostProject
    | dynamic => addRemoteToDynamicHost opts pathToMFManifest
    end;;;
    declarationFilePath <- joinPath (sourceRoot hostProject) "remotes.d.ts";;
    present <- tree_exists declarationFilePath;;
    existing <- (if (present : bool) then tree_read declarationFilePath
                 else ret (Some ""));;
    tree_write declarationFilePath
      (Js.ofNullable existing ++ declarationLine opts);;;
    addLazyLoadedRouteToHostAppModule opts hostFederationType
  else ret tt.

End Registrar.

(** ** The preset resolver: data *)

Definition rbind {A B} (r : result A) (k : A -> result B) : result B :=
  match r with
  | Ok a => k a
  | Throw e => Throw e
  end.

Declare Scope result_scope.
Delimit Scope result_scope with res.
Notation "x <- c ;; k" := (rbind c (fun x => k))
  (at level 100, c at next level, right associativity) : result_scope.

Record ProjectGraphNode := {
  nodeType : string;
  data : option ProjectConfiguration;
}.

Record ProjectGraph := {
  nodes : gmap string ProjectGraphNode;
  dependencies : gmap string (list string);
}.

(** [graph.nodes[key]?.data]. *)
Definition nodeData (graph : ProjectGraph) (key : string)
  : option ProjectConfiguration :=
  match nodes graph !! key with
  | Some node => data node
  | None => None
  end.

Module Target.
Record t := {
  project : option string;
  target : string;
  configuration : option string;
}.
End Target.

Module ExecutorContext.
Record t := {
  cwd : string;
  projectGraph : ProjectGraph;
  target : option TargetConfiguration;
  targetName : string;
  configurationName : option string;
  root : string;
  isVerbose : bool;
  projectName : option string;
  workspace : gmap string json;
}.
End ExecutorContext.

Record ReactComponentTestingOptions := {
  ctTargetName : string;
}.

Record CypressExecutorOptions := {
  devServerTarget : option string;
  cypressOthers : gmap string json;
}.

Module OptimizationOptions.
Record t := {
  scripts : option bool;
  styles : option bool;
}.
End OptimizationOptions.

Record WebWebpackExecutorOptions := {
  compiler : option string;
  deleteOutputPath : option bool;
  vendorChunk : option bool;
  commonChunk : option bool;
  runtimeChunk : option bool;
  sourceMap : option json;
  assets : option (list json);
  scripts : option (list json);
  styles : option (list json);
  budgets : option (list json);
  namedChunks : option bool;
  outputHashing : option string;
  extractCss : option bool;
  memoryLimit : option Z;
  maxWorkers : option Z;
  fileReplacements : option (list json);
  buildLibsFromSource : option bool;
  generateIndexHtml : option bool;
  optimization : option (bool + OptimizationOptions.t);
  webOthers : gmap string json;
}.

(** The type argument of [readTargetOptions<T>]. *)
Inductive OptionsKind := cypressOptions | webOptions.

Definition OptionsOf (k : OptionsKind) : Type :=
  match k with
  | cypressOptions => CypressExecutorOptions
  | webOptions => WebWebpackExecutorOptions
  end.

Module BaseWebpackOptions.
Record t := {
  tsConfigPath : string;
  compiler : string;
}.
End BaseWebpackOptions.

Inductive LogEntry :=
  | Warn (text : string)
  | WarnError (e : exn).

(** [o ??= d] on a field. *)
Definition orDefault {A} (o : option A) (d : A) : option A :=
  match o with
  | Some v => Some v
  | None => Some d
  end.

Section Preset.

Variables WebpackConfig BaseCypressPreset : Type.

Record DevServer := {
  framework : string;
  bundler : string;
  webpackConfig : WebpackConfig;
}.

Record ComponentTestingPreset := {
  basePreset : BaseCypressPreset;
  devServer : DevServer;
}.

(** The workspace and the functions imported from other packages. *)
Record Workspace := {
  workspaceRoot : string;
  processCwd : string;
  NX_CYPRESS_TARGET_CONFIGURATION : option string;
  readCachedProjectGraph : result ProjectGraph;
  relative : string -> string -> string;
  extname : string -> string;
  lstatIsFile : string -> result bool;
  (** [mapProjectGraphFiles(graph).allFiles]. *)
  allFilesOf : ProjectGraph -> result (gmap string string);
  readProjectsConfigurationFromProjectGraph :
    ProjectGraph -> result (gmap string json);
  readNxJson : result (gmap string json);
  readTargetOptions :
    forall k : OptionsKind, Target.t -> ExecutorContext.t -> result (OptionsOf k);
  parseTargetString : string -> result Target.t;
  normalizeWebBuildOptions :
    WebWebpackExecutorOptions -> string -> option string ->
    result WebWebpackExecutorOptions;
  getWebConfig :
    string -> string -> option string -> WebWebpackExecutorOptions ->
    bool -> bool -> option string -> result WebpackConfig;
  stripIndents : string -> string;
  (** Modelled from the spec: [buildBaseWebpackConfig] of
      [./webpack-fallback] is not among the sources; it builds the
      fallback configuration from a TypeScript-config path and a
      compiler choice. *)
  buildBaseWebpackConfig : BaseWebpackOptions.t -> WebpackConfig;
  (** Modelled from the spec: [nxBaseCypressPreset] is not among the
      sources; it derives the base preset from the config path. *)
  nxBaseCypressPreset : string -> BaseCypressPreset;
}.

Variable ws : Workspace.

Local Open Scope result_scope.

Definition createExecutorContext (graph : ProjectGraph)
    (targets : option (gmap string TargetConfiguration))
    (projectName : option string) (targetName : string)
    (configurationName : option string) : result ExecutorContext.t :=
  projectConfigs <- readProjectsConfigurationFromProjectGraph ws graph;;
  target <- match targets with
            | Some ts => Ok (ts !! targetName)
            | None => Throw (TypeError "Cannot read properties of undefined")
            end;;
  nxJson <- readNxJson ws;;
  Ok {| ExecutorContext.cwd := processCwd ws;
        ExecutorContext.projectGraph := graph;
        ExecutorContext.target := target;
        ExecutorContext.targetName := targetName;
        ExecutorContext.configurationName := configurationName;
        ExecutorContext.root := workspaceRoot ws;
        ExecutorContext.isVerbose := false;
        ExecutorContext.projectName := projectName;
        ExecutorContext.workspace := projectConfigs ∪ nxJson |}.

Definition configNotFoundMessage (graph : ProjectGraph)
    (normalizedPath : string) (projectName : option string) : string :=
  stripIndents ws
    ("Unable to find the project configuration that includes "
     ++ normalizedPath ++ ". " ++ Js.nl
     ++ "      Found project name? " ++ Js.ofOptString projectName ++ ". "
     ++ Js.nl
     ++ "      Graph has data? "
     ++ Js.ofBool (bool_decide
          (is_Some (nodeData graph (Js.ofOptString projectName))))).

(** [graph.nodes[key].data.name ??= key], on the shared graph. *)
Definition fillName (graph : ProjectGraph) (key : string) : ProjectGraph :=
  {| nodes :=
       alter (fun node =>
                {| nodeType := nodeType node;
                   data :=
                     match data node with
                     | Some cfg =>
                         Some {| name := orDefault (name cfg) key;
                                 root := root cfg;
                                 sourceRoot := sourceRoot cfg;
                                 targets := targets cfg |}
                     | None => None
                     end |})
             key (nodes graph);
     dependencies := dependencies graph |}.

(** Returns the configuration together with the graph, whose node has
    been updated in place. *)
Definition getConfigByPath (graph : ProjectGraph) (configPath : string)
  : result (ProjectGraph * ProjectConfiguration) :=
  let configFileFromWorkspaceRoot :=
    relative ws (workspaceRoot ws) configPath in
  isFile <- lstatIsFile ws configPath;;
  let normalizedPathFromWorkspaceRoot :=
    if (isFile : bool)
    then Js.removeFirst (extname ws configPath) configFileFromWorkspaceRoot
    else configFileFromWorkspaceRoot in
  allFiles <- allFilesOf ws graph;;
  let componentTestingProjectName :=
    allFiles !! normalizedPathFromWorkspaceRoot in
  let key := Js.ofOptString componentTestingProjectName in
  if negb (Js.truthy componentTestingProjectName)
     || negb (bool_decide (is_Some (nodeData graph key)))
  then Throw (Error (configNotFoundMessage graph
                       normalizedPathFromWorkspaceRoot
                       componentTestingProjectName))
  else
    let graph' := fillName graph key in
    match nodeData graph' key with
    | Some cfg => Ok (graph', cfg)
    | None => Throw (TypeError "Cannot read properties of undefined")
    end.

(** apply the schema.json defaults from the @nrwl/web:webpack executor
    to the target options *)
Definition withSchemaDefaults (target : Target.t)
    (context : ExecutorContext.t) : result WebWebpackExecutorOptions :=
  o <- readTargetOptions ws webOptions target context;;
  Ok {| compiler := orDefault (compiler o) "babel";
        deleteOutputPath := orDefault (deleteOutputPath o) true;
        vendorChunk := orDefault (vendorChunk o) true;
        commonChunk := orDefault (commonChunk o) true;
        runtimeChunk := orDefault (runtimeChunk o) true;
        sourceMap := orDefault (sourceMap o) (JBool true);
        assets := orDefault (assets o) [];
        scripts := orDefault (scripts o) [];
        styles := orDefault (styles o) [];
        budgets := orDefault (budgets o) [];
        namedChunks := orDefault (namedChunks o) true;
        outputHashing := orDefault (outputHashing o) "none";
        extractCss := orDefault (extractCss o) true;
        memoryLimit := orDefault (memoryLimit o) 2048;
        maxWorkers := orDefault (maxWorkers o) 2;
        fileReplacements := orDefault (fileReplacements o) [];
        buildLibsFromSource := orDefault (buildLibsFromSource o) true;
        generateIndexHtml := orDefault (generateIndexHtml o) true;
        optimization := optimization o;
        webOthers := webOthers o |}.

Definition isScriptOptimizeOn (o : WebWebpackExecutorOptions) : bool :=
  match optimization o with
  | Some (inl b) => b
  | Some (inr opt) =>
      match OptimizationOptions.scripts opt with
      | Some true => true
      | _ => false
      end
  | None => false
  end.

Definition configsNotLoadedMessage (buildTarget : string)
    (hasBuild hasComponent : bool) : string :=
  stripIndents ws
    ("Unable to load project configs from graph. " ++ Js.nl
     ++ "    Using build target '" ++ buildTarget ++ "'" ++ Js.nl
     ++ "    Has build config? " ++ Js.ofBool hasBuild ++ Js.nl
     ++ "    Has component config? " ++ Js.ofBool hasComponent ++ Js.nl
     ++ "    ").

Definition buildTargetWebpack (graph : ProjectGraph) (buildTarget : string)
    (componentTestingProjectName : option string) : result WebpackConfig :=
  parsed <- parseTargetString ws buildTarget;;
  let buildableProjectConfig :=
    nodeData graph (Js.ofOptString (Target.project parsed)) in
  let ctProjectConfig :=
    nodeData graph (Js.ofOptString componentTestingProjectName) in
  match buildableProjectConfig, ctProjectConfig with
  | Some buildable, Some ct =>
      context <- createExecutorContext graph (targets buildable)
                   (Target.project parsed) (Target.target parsed)
                   (Some (Target.target parsed));;
      defaulted <- withSchemaDefaults parsed context;;
      opts <- normalizeWebBuildOptions ws defaulted (workspaceRoot ws)
                (sourceRoot buildable);;
      getWebConfig ws (workspaceRoot ws) (root ct) (sourceRoot ct) opts
        true (isScriptOptimizeOn opts) (Target.configuration parsed)
  | _, _ =>
      Throw (Error (configsNotLoadedMessage buildTarget
                      (bool_decide (is_Some buildableProjectConfig))
                      (bool_decide (is_Some ctProjectConfig))))
  end.

Definition noDevServerTargetMessage (ctTargetName : string)
    (ctProjectName : option string) : string :=
  "Unable to find the 'devServerTarget' executor option in the '"
  ++ ctTargetName ++ "' target of the '" ++ Js.ofOptString ctProjectName
  ++ "' project".

(** [options?.ctTargetName || 'component-test']. *)
Definition targetNameOf (opts : option ReactComponentTestingOptions)
  : string :=
  match opts with
  | Some o => if String.eqb (ctTargetName o) "" then "component-test"
              else ctTargetName o
  | None => "component-test"
  end.

(** The body of the [try] block: the configuration built from the
    project graph. *)
Definition graphWebpackConfig (pathToConfig : string)
    (opts : option ReactComponentTestingOptions) : result WebpackConfig :=
  graph <- readCachedProjectGraph ws;;
  found <- getConfigByPath graph pathToConfig;;
  (* the graph object, as [getConfigByPath] left it *)
  let graph := fst found in
  let ctTargets := targets (snd found) in
  let ctProjectName := name (snd found) in
  let ctTargetName := targetNameOf opts in
  let ctConfigurationName := NX_CYPRESS_TARGET_CONFIGURATION ws in
  ctExecutorContext <- createExecutorContext graph ctTargets ctProjectName
                         ctTargetName ctConfigurationName;;
  ctExecutorOptions <-
    readTargetOptions ws cypressOptions
      {| Target.project := ctProjectName;
         Target.target := ctTargetName;
         Target.configuration := ctConfigurationName |}
      ctExecutorContext;;
  let buildTarget := devServerTarget (ctExecutorOptions : CypressExecutorOptions) in
  match buildTarget with
  | Some target =>
      if String.eqb target ""
      then Throw (Error (noDevServerTargetMessage ctTargetName ctProjectName))
      else buildTargetWebpack graph target ctProjectName
  | None => Throw (Error (noDevServerTargetMessage ctTargetName ctProjectName))
  end.

Definition fallbackWarning : string :=
  stripIndents ws
    ("Unable to build a webpack config with the project graph. " ++ Js.nl
     ++ "      Falling back to default webpack config.").

Definition fallbackOptions : BaseWebpackOptions.t :=
  {| BaseWebpackOptions.tsConfigPath := "tsconfig.cy.json";
     BaseWebpackOptions.compiler := "babel" |}.

Definition presetWith (pathToConfig : string) (config : WebpackConfig)
  : ComponentTestingPreset :=
  {| basePreset := nxBaseCypressPreset ws pathToConfig;
     devServer := {| framework := "react";
                     bundler := "webpack";
                     webpackConfig := config |} |}.

(** The outcome of the call for its caller, and what was logged. *)
Definition nxComponentTestingPreset (pathToConfig : string)
    (opts : option ReactComponentTestingOptions)
  : result ComponentTestingPreset * list LogEntry :=
  match graphWebpackConfig pathToConfig opts with
  | Ok config => (Ok (presetWith pathToConfig config), [])
  | Throw e =>
      (Ok (presetWith pathToConfig (buildBaseWebpackConfig ws fallbackOptions)),
       [Warn fallbackWarning; WarnError e])
  end.

End Preset.

(** ** Sample collaborators

    Small stand-ins for the collaborators, used to run the embedding on
    concrete workspaces. *)

Module Sample.

Definition join (fragments : list string) : string :=
  String.concat "/" fragments.

Definition hostConfiguration : ProjectConfiguration :=
  {| name := Some "host";
     root := "apps/host";
     sourceRoot := Some "apps/host/src";
     targets := None |}.

Definition configurationOf (fs : gmap string string)
    (project : option string) : result ProjectConfiguration :=
  match project with
  | Some p => if String.eqb p "host" then Ok hostConfiguration
              else Throw (Error ("Cannot find configuration for " ++ p))
  | None => Throw (Error "Cannot find configuration for undefined")
  end.

Definition emptyManifest : string := "{}".

Definition shopManifest : string :=
  "{" ++ Js.dq ++ "shop" ++ Js.dq ++ ":" ++ Js.dq
  ++ "http://localhost:4200" ++ Js.dq ++ "}".

Definition shopObject : gmap string json :=
  {[ "shop" := JString "http://localhost:4200" ]}.

(** Parses the two manifests above. *)
Definition parse (text : string) : result json :=
  if String.eqb text emptyManifest then Ok (JObject ∅)
  else if String.eqb text shopManifest then Ok (JObject shopObject)
  else Throw (Error "Cannot parse").

Definition member (kv : string * json) : string :=
  Js.dq ++ fst kv ++ Js.dq ++ ":"
  ++ match snd kv with
     | JString v => Js.dq ++ v ++ Js.dq
     | _ => "null"
     end.

Definition serialize (v : json) : string :=
  match v with
  | JObject m => "{" ++ String.concat "," (member <$> map_to_list m) ++ "}"
  | _ => "null"
  end.

(** The first bracketed span of the text. *)
Definition firstArray (text : option string)
  : result (option ArrayLiteralExpression) :=
  match text with
  | Some s =>
      let i := Js.indexOf "[" s in
      let j := Js.indexOf "]" s in
      if (0 <=? i) && (i <? j)
      then Ok (Some {| getEnd := j + 1; getText := Js.slice s i (j + 1) |})
      else Ok None
  | None => Throw (TypeError "Cannot read properties of null")
  end.

Definition devkit : Devkit :=
  {| joinPathFragments := join;
     projectConfigurationOf := configurationOf;
     className := fun n => n;
     parseJson := parse;
     serializeJson := serialize;
     remotesArray := firstArray;
     insertImportText := fun source symbolName moduleName =>
       Ok ("import { " ++ symbolName ++ " } from '" ++ moduleName ++ "';"
           ++ Js.nl ++ source);
     addRouteText := fun source route => Ok (source ++ Js.nl ++ route);
     addStandaloneRouteText := fun source route =>
       Ok (source ++ Js.nl ++ route) |}.

Definition remote : Schema :=
  {| mfType := Some mfRemote;
     appName := "shop";
     host := Some "host";
     port := Some 4201%N;
     standalone := false |}.

Definition treeOf (l : list (string * string)) : Tree :=
  {| files := list_to_map l; journal := [] |}.

Definition configFile : string * string :=
  ("apps/host/module-federation.config.js",
   "module.exports = { name: 'host', remotes: [] };").

Definition manifestFile : string * string :=
  ("apps/host/src/assets/module-federation.manifest.json", shopManifest).

Definition bootstrapFile : string * string :=
  ("apps/host/src/bootstrap.ts",
   "platformBrowserDynamic().bootstrapModule(AppModule)").

Definition menu : string :=
  "<ul class=" ++ Js.dq ++ "remote-menu" ++ Js.dq
  ++ "><li>Home</li></ul><router-outlet></router-outlet>".

Definition templateFile : string * string :=
  ("apps/host/src/app/app.component.html", menu).


(** A host that was set up for static federation only: no
    [bootstrap.ts], no [app/app.module.ts]. *)
Definition bareHost : Tree := treeOf [configFile].

(** A module-based host whose module does not call
    [RouterModule.forRoot(]. *)
Definition unroutedHost : Tree :=
  treeOf [configFile; bootstrapFile; templateFile;
          ("apps/host/src/app/app.module.ts",
           "@NgModule({ imports: [BrowserModule] })")].

Definition routedModule : string * string :=
  ("apps/host/src/app/app.module.ts",
   "@NgModule({ imports: [RouterModule.forRoot([])] })").



Definition dynamicHost : Tree := treeOf [manifestFile].

End Sample.

Arguments workspaceRoot {WebpackConfig BaseCypressPreset} w.
Arguments processCwd {WebpackConfig BaseCypressPreset} w.
Arguments NX_CYPRESS_TARGET_CONFIGURATION {WebpackConfig BaseCypressPreset} w.
Arguments readCachedProjectGraph {WebpackConfig BaseCypressPreset} w.
Arguments relative {WebpackConfig BaseCypressPreset} w.
Arguments extname {WebpackConfig BaseCypressPreset} w.
Arguments lstatIsFile {WebpackConfig BaseCypressPreset} w.
Arguments allFilesOf {WebpackConfig BaseCypressPreset} w.
Arguments readProjectsConfigurationFromProjectGraph {WebpackConfig BaseCypressPreset} w.
Arguments readNxJson {WebpackConfig BaseCypressPreset} w.
Arguments readTargetOptions {WebpackConfig BaseCypressPreset} w.
Arguments parseTargetString {WebpackConfig BaseCypressPreset} w.
Arguments normalizeWebBuildOptions {WebpackConfig BaseCypressPreset} w.
Arguments getWebConfig {WebpackConfig BaseCypressPreset} w.
Arguments stripIndents {WebpackConfig BaseCypressPreset} w.
Arguments buildBaseWebpackConfig {WebpackConfig BaseCypressPreset} w.
Arguments nxBaseCypressPreset {WebpackConfig BaseCypressPreset} w.
Arguments framework {WebpackConfig} d.
Arguments bundler {WebpackConfig} d.
Arguments webpackConfig {WebpackConfig} d.
Arguments basePreset {WebpackConfig BaseCypressPreset} c.
Arguments devServer {WebpackConfig BaseCypressPreset} c.
Arguments presetWith {WebpackConfig BaseCypressPreset} ws pathToConfig config.
Arguments fallbackWarning {WebpackConfig BaseCypressPreset} ws.
Arguments graphWebpackConfig {WebpackConfig BaseCypressPreset} ws pathToConfig opts.
Arguments nxComponentTestingPreset {WebpackConfig BaseCypressPreset} ws pathToConfig opts.
Arguments buildTargetWebpack {WebpackConfig BaseCypressPreset} ws graph buildTarget componentTestingProjectName.
Arguments getConfigByPath {WebpackConfig BaseCypressPreset} ws graph configPath.
Arguments createExecutorContext {WebpackConfig BaseCypressPreset} ws graph targets projectName targetName configurationName.
Arguments withSchemaDefaults {WebpackConfig BaseCypressPreset} ws target context.

(** ** A sample workspace *)

Module SampleWorkspace.

Definition target (executorName : string) : TargetConfiguration :=
  {| executor := Some executorName; options := ∅; configurations := ∅ |}.

Definition app : ProjectConfiguration :=
  {| name := None;
     root := "apps/app";
     sourceRoot := Some "apps/app/src";
     targets := Some {[ "component-test" := target "@nrwl/cypress:cypress";
                        "build" := target "@nrwl/web:webpack" ]} |}.

Definition graph : ProjectGraph :=
  {| nodes := {[ "app" := {| nodeType := "app"; data := Some app |} ]};
     dependencies := ∅ |}.

Definition noWebOptions : WebWebpackExecutorOptions :=
  {| compiler := None; deleteOutputPath := None; vendorChunk := None;
     commonChunk := None; runtimeChunk := None; sourceMap := None;
     assets := None; scripts := None; styles := None; budgets := None;
     namedChunks := None; outputHashing := None; extractCss := None;
     memoryLimit := None; maxWorkers := None; fileReplacements := None;
     buildLibsFromSource := None; generateIndexHtml := None;
     optimization := None; webOthers := ∅ |}.

Definition optionsOf (devServerTarget : option string) (k : OptionsKind)
  : result (OptionsOf k) :=
  match k with
  | cypressOptions =>
      Ok {| devServerTarget := devServerTarget; cypressOthers := ∅ |}
  | webOptions => Ok noWebOptions
  end.

(** [project:target], without a configuration. *)
Definition parse (s : string) : result Target.t :=
  let i := Js.indexOf ":" s in
  if i <? 0 then Throw (Error ("Invalid Target String: " ++ s))
  else Ok {| Target.project := Some (Js.slice s 0 i);
             Target.target := Js.slice_from s (i + 1);
             Target.configuration := None |}.

Definition extension (path : string) : string :=
  if Js.endsWith ".ts" path then ".ts" else "".

(** A workspace at [/ws] with the project [app], whose component-test
    target reads the given [devServerTarget]. *)
Definition workspace (devServerTarget : option string)
  : Workspace string string :=
  {| workspaceRoot := "/ws";
     processCwd := "/ws";
     NX_CYPRESS_TARGET_CONFIGURATION := None;
     readCachedProjectGraph := Ok graph;
     relative := fun from to => Js.removeFirst (from ++ "/") to;
     extname := extension;
     lstatIsFile := fun path => Ok (Js.endsWith ".ts" path);
     allFilesOf := fun _ => Ok {[ "apps/app/cypress.config" := "app" ]};
     readProjectsConfigurationFromProjectGraph := fun _ => Ok ∅;
     readNxJson := Ok ∅;
     readTargetOptions := fun k _ _ => optionsOf devServerTarget k;
     parseTargetString := parse;
     normalizeWebBuildOptions := fun o _ _ => Ok o;
     getWebConfig := fun _ projectRoot _ o _ _ _ =>
       Ok ("webpack config of " ++ projectRoot ++ " with "
           ++ Js.ofOptString (compiler o));
     stripIndents := fun s => s;
     buildBaseWebpackConfig := fun o =>
       "fallback config with " ++ BaseWebpackOptions.tsConfigPath o
       ++ " and " ++ BaseWebpackOptions.compiler o;
     nxBaseCypressPreset := fun path => "base preset of " ++ path |}.

Definition configPath : string := "/ws/apps/app/cypress.config.ts".

(** What [getConfigByPath] finds for [configPath]: the graph and the
    configuration of [app], both with the name filled in. *)
Definition resolved : ProjectGraph * ProjectConfiguration :=
  (fillName graph "app",
   {| name := Some "app";
      root := root app;
      sourceRoot := sourceRoot app;
      targets := targets app |}).

(** The preset resolved from the graph when the component-test target
    points at [app:build]. *)
Definition resolvedPreset : ComponentTestingPreset string string :=
  presetWith (workspace (Some "app:build")) configPath
    "webpack config of apps/app with babel".

End SampleWorkspace.

(** ** Frames *)

(** The computation leaves the file at [path] as it found it, whatever
    its outcome. *)
Definition keeps {A} (path : string) (m : M A) : Prop :=
  forall t, files (snd (m t)) !! path = files t !! path.

(** ** Sample hosts for the edge cases *)

Module SampleEdge.

(** A config file without a remotes array. *)
Definition arraylessHost : Tree :=
  Sample.treeOf [("apps/host/module-federation.config.js",
                  "module.exports = { name: 'host' };")].

(** A manifest that is not JSON. *)
Definition brokenManifestHost : Tree :=
  Sample.treeOf [(fst Sample.manifestFile, "{ shop: ")].

(** A parser that also knows [null]. *)
Definition parse (text : string) : result json :=
  if String.eqb text "null" then Ok JNull else Sample.parse text.

Definition devkit : Devkit :=
  {| joinPathFragments := joinPathFragments Sample.devkit;
     projectConfigurationOf := projectConfigurationOf Sample.devkit;
     className := className Sample.devkit;
     parseJson := parse;
     serializeJson := serializeJson Sample.devkit;
     remotesArray := remotesArray Sample.devkit;
     insertImportText := insertImportText Sample.devkit;
     addRouteText := addRouteText Sample.devkit;
     addStandaloneRouteText := addStandaloneRouteText Sample.devkit |}.

Definition nullManifestHost : Tree :=
  Sample.treeOf [(fst Sample.manifestFile, "null")].

(** A dynamic host with a module that calls [RouterModule.forRoot(]. *)
Definition routedDynamicHost : Tree :=
  Sample.treeOf [Sample.manifestFile; Sample.bootstrapFile;
                 Sample.templateFile; Sample.routedModule].

(** The routed static host, with its entry file. *)
Definition mainFile : string * string :=
  ("apps/host/src/main.ts", "import('./bootstrap');").

Definition hostWithMain : Tree :=
  Sample.treeOf [mainFile; Sample.configFile; Sample.bootstrapFile;
                 Sample.templateFile; Sample.routedModule].

(** A routed static host without an app template. *)
Definition templatelessHost : Tree :=
  Sample.treeOf [Sample.configFile; Sample.bootstrapFile;
                 Sample.routedModule].

End SampleEdge.

(** ** Defaults *)

(** A field after [??=]: the value given when there is one, the fallback
    otherwise. *)
Definition filled {A} (given : option A) (fallback : A) (field : option A)
  : Prop :=
  field = Some (match given with Some v => v | None => fallback end).

(** ** A sample build target *)

Module SampleBuild.

Definition target : Target.t :=
  {| Target.project := Some "app";
     Target.target := "build";
     Target.configuration := None |}.

Definition context : ExecutorContext.t :=
  {| ExecutorContext.cwd := "/ws";
     ExecutorContext.projectGraph := SampleWorkspace.graph;
     ExecutorContext.target :=
       Some (SampleWorkspace.target "@nrwl/web:webpack");
     ExecutorContext.targetName := "build";
     ExecutorContext.configurationName := Some "build";
     ExecutorContext.root := "/ws";
     ExecutorContext.isVerbose := false;
     ExecutorContext.projectName := Some "app";
     ExecutorContext.workspace := ∅ |}.

End SampleBuild.

(** * Properties *)

(** ** Strings *)

Section StringFacts.

Lemma append_cons (c : ascii) (s1 s2 : string) :
  String c s1 ++ s2 = String c (s1 ++ s2).
Proof. reflexivity. Qed.

Lemma take_drop (n : nat) (s : string) : Js.take n s ++ Js.drop n s = s.
Proof.
  revert s; induction n as [|n IH]; intros [|c s]; simpl; try reflexivity.
  rewrite append_cons. f_equal. apply IH.
Qed.

Lemma length_take (n : nat) (s : string) :
  (n <= String.length s)%nat -> String.length (Js.take n s) = n.
Proof.
  revert s; induction n as [|n IH]; intros [|c s]; simpl; intros H;
    try reflexivity; try lia.
  rewrite IH; [reflexivity | lia].
Qed.

Lemma clamp_inside (len : nat) (i : Z) :
  0 <= i <= Z.of_nat len -> Js.clamp len i = Z.to_nat i.
Proof.
  intros H. unfold Js.clamp.
  destruct (Z.ltb_spec i 0); [lia|]. f_equal. lia.
Qed.

Lemma slice_prefix (s : string) (i : Z) :
  0 <= i <= Z.of_nat (String.length s) ->
  Js.slice s 0 i = Js.take (Z.to_nat i) s.
Proof.
  intros H. unfold Js.slice.
  rewrite (clamp_inside _ i H), (clamp_inside _ 0) by lia.
  simpl. now rewrite Nat.sub_0_r.
Qed.

Lemma slice_from_suffix (s : string) (i : Z) :
  0 <= i <= Z.of_nat (String.length s) ->
  Js.slice_from s i = Js.drop (Z.to_nat i) s.
Proof. intros H. unfold Js.slice_from. now rewrite clamp_inside. Qed.




End StringFacts.

(** ** The comma test *)




(** ** Running the tree monad *)

Lemma bind_Ok {A B} (m : M A) (k : A -> M B) (t t' : Tree) (a : A) :
  m t = (Ok a, t') -> bind m k t = k a t'.
Proof. intros H. unfold bind. now rewrite H. Qed.

Lemma bind_Throw {A B} (m : M A) (k : A -> M B) (t t' : Tree) (e : exn) :
  m t = (Throw e, t') -> bind m k t = (Throw e, t').
Proof. intros H. unfold bind. now rewrite H. Qed.

Lemma tree_exists_absent (path : string) (t : Tree) :
  files t !! path = None ->
  tree_exists path t = (Ok false, record (EExists path) t).
Proof.
  intros H. unfold tree_exists. rewrite H.
  rewrite bool_decide_eq_false_2; [reflexivity | now intros [x Hx]].
Qed.

Lemma tree_exists_present (path content : string) (t : Tree) :
  files t !! path = Some content ->
  tree_exists path t = (Ok true, record (EExists path) t).
Proof.
  intros H. unfold tree_exists. rewrite H.
  rewrite bool_decide_eq_true_2; [reflexivity | now exists content].
Qed.

Lemma isRemoteWithHost_true (opts : Schema) :
  isRemoteWithHost opts = true <->
  mfType opts = Some mfRemote /\ exists h, host opts = Some h /\ h <> "".
Proof.
  unfold isRemoteWithHost, Js.truthy. split.
  - destruct (mfType opts) as [[|]|]; try discriminate.
    destruct (host opts) as [h|]; try discriminate.
    destruct (String.eqb_spec h "") as [-> | Hne]; simpl; try discriminate.
    intros _. split; [reflexivity | exists h; split; [reflexivity | exact Hne]].
  - intros [-> (h & -> & Hne)].
    destruct (String.eqb_spec h ""); [contradiction | reflexivity].
Qed.

(** ** The registrar does nothing unless asked to register a remote *)

(** C8: unless [options.mfType] is 'remote' and [options.host] is set,
    [addRemoteToHost] returns at once: the files of the tree are the
    same and its journal is the same, so nothing was read or written. *)
Theorem addRemoteToHost_noop (dk : Devkit) (opts : Schema) (t : Tree) :
  ~ (mfType opts = Some mfRemote /\ exists h, host opts = Some h /\ h <> "") ->
  addRemoteToHost dk opts t = (Ok tt, t).
Proof.
  intros H. unfold addRemoteToHost.
  destruct (isRemoteWithHost opts) eqn:E; [| reflexivity].
  exfalso. apply H. now apply isRemoteWithHost_true.
Qed.

Lemma addRemoteToHost_noop_witness :
  ~ (mfType {| mfType := Some mfHost; appName := "shell"; host := None;
               port := Some 4200%N; standalone := false |} = Some mfRemote
     /\ exists h, None = Some h /\ h <> "")
  /\ addRemoteToHost Sample.devkit
       {| mfType := Some mfHost; appName := "shell"; host := None;
          port := Some 4200%N; standalone := false |}
       (Sample.treeOf [("apps/host/src/bootstrap.ts", "bootstrapModule")])
     = (Ok tt, Sample.treeOf [("apps/host/src/bootstrap.ts", "bootstrapModule")]).
Proof.
  split.
  - intros [H _]. discriminate H.
  - apply (addRemoteToHost_noop Sample.devkit).
    intros [H _]. discriminate H.
Defined.

(** ** A static host that was never set up *)

(** C3: registering a remote against a host that has no federation
    manifest (a static host) and no [module-federation.config.js] under
    its root throws the error that names the host and the missing files;
    the files of the tree are as before, so [remotes.d.ts] too, and the
    journal gained no write. *)
Theorem static_host_without_config_throws
    (dk : Devkit) (opts : Schema) (t : Tree) (h : string)
    (hostProject : ProjectConfiguration) (src : string) :
  mfType opts = Some mfRemote ->
  host opts = Some h -> h <> "" ->
  projectConfigurationOf dk (files t) (Some h) = Ok hostProject ->
  sourceRoot hostProject = Some src ->
  files t !! joinPathFragments dk [src; "assets/module-federation.manifest.json"]
    = None ->
  files t !! joinPathFragments dk [root hostProject; "module-federation.config.js"]
    = None ->
  exists events : list event,
    addRemoteToHost dk opts t
    = (Throw (Error
         ("The selected host application, " ++ h
          ++ ", does not contain a module-federation.config.js or module-federation.manifest.json file. Are you sure it has been set up as a host application?")),
       {| files := files t; journal := journal t ++ events |})
    /\ forallb (fun e => negb (isWrite e)) events = true
    /\ files t !! joinPathFragments dk [src; "remotes.d.ts"]
       = files {| files := files t; journal := journal t ++ events |}
           !! joinPathFragments dk [src; "remotes.d.ts"].
Proof.
  intros Hmf Hhost Hne Hcfg Hsrc Hmanifest Hconfig.
  assert (Hremote : isRemoteWithHost opts = true)
    by (apply isRemoteWithHost_true; split; [exact Hmf | now exists h]).
  unfold addRemoteToHost. rewrite Hremote.
  unfold readProjectConfiguration, determineHostFederationType,
    addRemoteToStaticHost, missingHostMessage, joinPath, bind, ret, throw.
  rewrite Hhost. cbv beta iota. rewrite Hcfg. cbv beta iota.
  rewrite Hsrc. cbv beta iota.
  rewrite tree_exists_absent by exact Hmanifest. cbv beta iota.
  destruct (String.eqb _ "") eqn:Hempty.
  - exists [EReadProject (Some h);
            EExists (joinPathFragments dk
                      [src; "assets/module-federation.manifest.json"])].
    unfold record. simpl. rewrite <- !app_assoc. simpl. auto.
  - rewrite tree_exists_absent by exact Hconfig. cbv beta iota.
    exists [EReadProject (Some h);
            EExists (joinPathFragments dk
                      [src; "assets/module-federation.manifest.json"]);
            EExists (joinPathFragments dk
                      [root hostProject; "module-federation.config.js"])].
    unfold record. simpl. rewrite <- !app_assoc. simpl. auto.
Qed.

Lemma static_host_without_config_throws_witness :
  exists events : list event,
    addRemoteToHost Sample.devkit Sample.remote (Sample.treeOf [])
    = (Throw (Error
         ("The selected host application, " ++ "host"
          ++ ", does not contain a module-federation.config.js or module-federation.manifest.json file. Are you sure it has been set up as a host application?")),
       {| files := files (Sample.treeOf []);
          journal := journal (Sample.treeOf []) ++ events |})
    /\ forallb (fun e => negb (isWrite e)) events = true
    /\ files (Sample.treeOf []) !! "apps/host/src/remotes.d.ts"
       = files {| files := files (Sample.treeOf []);
                  journal := journal (Sample.treeOf []) ++ events |}
           !! "apps/host/src/remotes.d.ts".
Proof.
  apply (static_host_without_config_throws Sample.devkit Sample.remote
           (Sample.treeOf []) "host" Sample.hostConfiguration "apps/host/src");
    solve [reflexivity | discriminate].
Defined.

(** ** A dynamic host: the manifest merge *)

Lemma updateJson_run (dk : Devkit) (path : string) (updater : json -> json)
    (t : Tree) (text : string) (value : json) :
  files t !! path = Some text ->
  parseJson dk text = Ok value ->
  updateJson dk path updater t
  = (Ok tt,
     {| files := <[path := serializeJson dk (updater value)]> (files t);
        journal := journal t
                   ++ [EExists path; ERead path;
                       EWrite path (serializeJson dk (updater value))] |}).
Proof.
  intros Hfile Hparse.
  unfold updateJson, bind, throw, lift, nonNull, ret.
  rewrite (tree_exists_present _ _ _ Hfile). cbv beta iota.
  unfold negb, tree_read, tree_write, record. cbn [files journal].
  rewrite Hfile. cbv beta iota. rewrite Hparse. cbv beta iota.
  cbn [files journal]. now rewrite <- !app_assoc.
Qed.

Lemma portText_number (opts : Schema) (n : N) :
  port opts = Some n -> remoteUrl opts = "http://localhost:" ++ pretty n.
Proof. intros H. unfold remoteUrl, portText. now rewrite H. Qed.

(** C4, amended: registering a remote against a dynamic host rewrites the
    manifest with an object that maps the application name to
    'http://localhost:<port>' and in which every other pre-existing key
    keeps its value; when the application name was not a key of the
    manifest, exactly one key is added. *)
Theorem dynamic_host_merges_remote
    (dk : Devkit) (opts : Schema) (path : string) (t : Tree)
    (text : string) (manifest : gmap string json) :
  files t !! path = Some text ->
  parseJson dk text = Ok (JObject manifest) ->
  exists updated : gmap string json,
    fst (addRemoteToDynamicHost dk opts path t) = Ok tt
    /\ files (snd (addRemoteToDynamicHost dk opts path t))
       = <[path := serializeJson dk (JObject updated)]> (files t)
    /\ updated !! appName opts = Some (JString (remoteUrl opts))
    /\ (forall n, port opts = Some n ->
          remoteUrl opts = "http://localhost:" ++ pretty n)
    /\ (forall key, key <> appName opts -> updated !! key = manifest !! key)
    /\ (manifest !! appName opts = None ->
          dom updated = {[appName opts]} ∪ dom manifest
          /\ size updated = S (size manifest)).
Proof.
  intros Hfile Hparse.
  exists (<[appName opts := JString (remoteUrl opts)]> manifest).
  unfold addRemoteToDynamicHost.
  rewrite (updateJson_run dk path (withRemote opts) t text _ Hfile Hparse).
  cbn [fst snd files withRemote spread].
  split; [reflexivity |]. split; [reflexivity |].
  split; [apply lookup_insert_eq |].
  split; [intros n; apply portText_number |].
  split.
  - intros key Hkey. now apply lookup_insert_ne.
  - intros Hfresh. split; [apply dom_insert_L | now apply map_size_insert_None].
Qed.

(** C10: when the manifest of the dynamic host already has the
    application name as a key, registering the remote returns without an
    error and writes an object with the same keys in which that key now
    maps to 'http://localhost:<port>': the value it had is gone, the other
    keys keep theirs. *)
Theorem dynamic_host_overwrites_remote
    (dk : Devkit) (opts : Schema) (path : string) (t : Tree)
    (text : string) (manifest : gmap string json) (previous : json) :
  files t !! path = Some text ->
  parseJson dk text = Ok (JObject manifest) ->
  manifest !! appName opts = Some previous ->
  exists updated : gmap string json,
    fst (addRemoteToDynamicHost dk opts path t) = Ok tt
    /\ files (snd (addRemoteToDynamicHost dk opts path t))
       = <[path := serializeJson dk (JObject updated)]> (files t)
    /\ updated !! appName opts = Some (JString (remoteUrl opts))
    /\ (forall n, port opts = Some n ->
          remoteUrl opts = "http://localhost:" ++ pretty n)
    /\ (previous <> JString (remoteUrl opts) ->
          updated !! appName opts <> Some previous)
    /\ dom updated = dom manifest
    /\ size updated = size manifest
    /\ (forall key, key <> appName opts -> updated !! key = manifest !! key).
Proof.
  intros Hfile Hparse Hold.
  exists (<[appName opts := JString (remoteUrl opts)]> manifest).
  unfold addRemoteToDynamicHost.
  rewrite (updateJson_run dk path (withRemote opts) t text _ Hfile Hparse).
  cbn [fst snd files withRemote spread].
  assert (Hdom : dom (<[appName opts := JString (remoteUrl opts)]> manifest)
                 = dom manifest).
  { apply dom_insert_lookup_L. now exists previous. }
  split; [reflexivity |]. split; [reflexivity |].
  split; [apply lookup_insert_eq |].
  split; [intros n; apply portText_number |].
  split; [rewrite lookup_insert_eq; congruence |].
  split; [exact Hdom |].
  split.
  - rewrite <- !size_dom. now rewrite Hdom.
  - intros key Hkey. now apply lookup_insert_ne.
Qed.

(** ** The routing entry point and the menu *)

(** One step of a computation on the tree: the monad and the primitive
    operations without a test are unfolded, the projections reduced. *)
Ltac mstep :=
  cbv beta iota delta
    [bind ret throw lift nonNull joinPath tree_read tree_write record];
  cbn [files journal fst snd negb].




(** The missing [bootstrap.ts]: the test for a standalone host calls
    [includes] on the [null] that was read. *)
Lemma routing_step_without_bootstrap (dk : Devkit) (opts : Schema)
    (ft : FederationType) (t : Tree) (cfg : ProjectConfiguration)
    (src : string) :
  projectConfigurationOf dk (files t) (host opts) = Ok cfg ->
  sourceRoot cfg = Some src ->
  files t !! joinPathFragments dk [src; "bootstrap.ts"] = None ->
  fst (addLazyLoadedRouteToHostAppModule dk opts ft t)
  = Throw (TypeError "Cannot read properties of null").
Proof.
  intros Hcfg Hsrc Hboot.
  unfold addLazyLoadedRouteToHostAppModule, readProjectConfiguration. mstep.
  rewrite Hcfg. mstep. rewrite Hsrc. mstep. rewrite Hboot. reflexivity.
Qed.

(** With [bootstrap.ts] in place, a routing file that is missing or has
    no [RouterModule.forRoot(] call ends the step: no error, no write. *)
Lemma routing_step_silent (dk : Devkit) (opts : Schema)
    (ft : FederationType) (t : Tree) (cfg : ProjectConfiguration)
    (src boot : string) :
  projectConfigurationOf dk (files t) (host opts) = Ok cfg ->
  sourceRoot cfg = Some src ->
  files t !! joinPathFragments dk [src; "bootstrap.ts"] = Some boot ->
  (files t !! pathToHostRootRouting cfg
                (negb (Js.includes "bootstrapModule" boot)) = None
   \/ exists routing,
        files t !! pathToHostRootRouting cfg
                     (negb (Js.includes "bootstrapModule" boot)) = Some routing
        /\ Js.includes "RouterModule.forRoot(" routing = false) ->
  fst (addLazyLoadedRouteToHostAppModule dk opts ft t) = Ok tt
  /\ files (snd (addLazyLoadedRouteToHostAppModule dk opts ft t)) = files t
  /\ forallb (fun e => negb (isWrite e))
       (journal (snd (addLazyLoadedRouteToHostAppModule dk opts ft t)))
     = forallb (fun e => negb (isWrite e)) (journal t).
Proof.
  intros Hcfg Hsrc Hboot Hrouting.
  unfold addLazyLoadedRouteToHostAppModule, readProjectConfiguration. mstep.
  rewrite Hcfg. mstep. rewrite Hsrc. mstep. rewrite Hboot. mstep.
  destruct Hrouting as [Hnone | (routing & Hsome & Hno)].
  - rewrite tree_exists_absent by exact Hnone. mstep.
    repeat split. rewrite !forallb_app. cbn. now rewrite !andb_true_r.
  - rewrite (tree_exists_present _ routing) by exact Hsome. mstep.
    rewrite Hsome. mstep. rewrite Hno. mstep.
    repeat split. rewrite !forallb_app. cbn. now rewrite !andb_true_r.
Qed.




(** C6: the routing step does not end in silence when its file is
    missing. On a host with neither [bootstrap.ts] nor
    [app/app.module.ts] the step throws a [TypeError], from the test of
    the [null] read for [bootstrap.ts], before the guard on the routing
    file is reached; registration as a whole throws it too, after the
    config file and [remotes.d.ts] were written. *)
Theorem routing_step_throws_on_missing_bootstrap :
  files Sample.bareHost !! "apps/host/src/bootstrap.ts" = None
  /\ files Sample.bareHost !! "apps/host/src/app/app.module.ts" = None
  /\ fst (addLazyLoadedRouteToHostAppModule Sample.devkit Sample.remote static
            Sample.bareHost)
     = Throw (TypeError "Cannot read properties of null")
  /\ fst (addRemoteToHost Sample.devkit Sample.remote Sample.bareHost)
     = Throw (TypeError "Cannot read properties of null")
  /\ files (snd (addRemoteToHost Sample.devkit Sample.remote Sample.bareHost))
       !! "apps/host/src/remotes.d.ts"
     = Some (Js.nl ++ "declare module 'shop/Module';").
Proof. vm_compute. repeat split. Qed.

Lemma dynamic_host_merges_remote_witness :
  exists updated : gmap string json,
    fst (addRemoteToDynamicHost Sample.devkit
           {| mfType := Some mfRemote; appName := "cart"; host := Some "host";
              port := Some 4202%N; standalone := true |}
           (fst Sample.manifestFile) Sample.dynamicHost) = Ok tt
    /\ files (snd (addRemoteToDynamicHost Sample.devkit
           {| mfType := Some mfRemote; appName := "cart"; host := Some "host";
              port := Some 4202%N; standalone := true |}
           (fst Sample.manifestFile) Sample.dynamicHost))
       = <[fst Sample.manifestFile := Sample.serialize (JObject updated)]>
           (files Sample.dynamicHost)
    /\ updated !! "cart" = Some (JString "http://localhost:4202")
    /\ (forall n, Some 4202%N = Some n ->
          "http://localhost:4202" = "http://localhost:" ++ pretty n)
    /\ (forall key, key <> "cart" ->
          updated !! key = Sample.shopObject !! key)
    /\ (Sample.shopObject !! "cart" = None ->
          dom updated = {["cart"]} ∪ dom Sample.shopObject
          /\ size updated = S (size Sample.shopObject)).
Proof.
  apply (dynamic_host_merges_remote Sample.devkit
           {| mfType := Some mfRemote; appName := "cart"; host := Some "host";
              port := Some 4202%N; standalone := true |}
           (fst Sample.manifestFile) Sample.dynamicHost Sample.shopManifest
           Sample.shopObject); reflexivity.
Defined.

(** The claim of C4 fails when the application name is already a key of
    the manifest: registering [shop] on port 4201 against a manifest that
    maps [shop] to port 4200 adds no key, and the pre-existing key does
    not keep its value. *)
Lemma dynamic_host_collision_adds_no_key :
  withRemote Sample.remote (JObject Sample.shopObject)
  = JObject {[ "shop" := JString "http://localhost:4201" ]}
  /\ size (spread (withRemote Sample.remote (JObject Sample.shopObject)))
     = size Sample.shopObject
  /\ Sample.shopObject !! "shop" = Some (JString "http://localhost:4200")
  /\ spread (withRemote Sample.remote (JObject Sample.shopObject)) !! "shop"
     <> Sample.shopObject !! "shop"
  /\ files (snd (addRemoteToDynamicHost Sample.devkit Sample.remote
                   (fst Sample.manifestFile) Sample.dynamicHost))
       !! fst Sample.manifestFile
     = Some ("{" ++ Js.dq ++ "shop" ++ Js.dq ++ ":" ++ Js.dq
             ++ "http://localhost:4201" ++ Js.dq ++ "}").
Proof.
  vm_compute. repeat split. discriminate.
Qed.

Lemma dynamic_host_overwrites_remote_witness :
  exists updated : gmap string json,
    fst (addRemoteToDynamicHost Sample.devkit Sample.remote
           (fst Sample.manifestFile) Sample.dynamicHost) = Ok tt
    /\ files (snd (addRemoteToDynamicHost Sample.devkit Sample.remote
                     (fst Sample.manifestFile) Sample.dynamicHost))
       = <[fst Sample.manifestFile := Sample.serialize (JObject updated)]>
           (files Sample.dynamicHost)
    /\ updated !! "shop" = Some (JString "http://localhost:4201")
    /\ (forall n, Some 4201%N = Some n ->
          "http://localhost:4201" = "http://localhost:" ++ pretty n)
    /\ (JString "http://localhost:4200" <> JString "http://localhost:4201" ->
          updated !! "shop" <> Some (JString "http://localhost:4200"))
    /\ dom updated = dom Sample.shopObject
    /\ size updated = size Sample.shopObject
    /\ (forall key, key <> "shop" ->
          updated !! key = Sample.shopObject !! key).
Proof.
  apply (dynamic_host_overwrites_remote Sample.devkit Sample.remote
           (fst Sample.manifestFile) Sample.dynamicHost Sample.shopManifest
           Sample.shopObject (JString "http://localhost:4200")); reflexivity.
Defined.

(** ** The preset resolver *)

Section PresetFacts.

Context {WebpackConfig BaseCypressPreset : Type}.
Variable ws : Workspace WebpackConfig BaseCypressPreset.







(** C9: every preset the resolver returns, from the graph or from the
    fallback, has [devServer.framework] "react" and [devServer.bundler]
    "webpack". *)
Theorem preset_devServer_is_react_webpack (pathToConfig : string)
    (opts : option ReactComponentTestingOptions)
    (preset : ComponentTestingPreset WebpackConfig BaseCypressPreset)
    (log : list LogEntry) :
  nxComponentTestingPreset ws pathToConfig opts = (Ok preset, log) ->
  framework (devServer preset) = "react"
  /\ bundler (devServer preset) = "webpack".
Proof.
  unfold nxComponentTestingPreset.
  destruct (graphWebpackConfig ws pathToConfig opts);
    intros [= <- _]; split; reflexivity.
Qed.

End PresetFacts.




Lemma preset_devServer_is_react_webpack_witness :
  framework (devServer SampleWorkspace.resolvedPreset) = "react"
  /\ bundler (devServer SampleWorkspace.resolvedPreset) = "webpack".
Proof.
  apply (preset_devServer_is_react_webpack
           (SampleWorkspace.workspace (Some "app:build"))
           SampleWorkspace.configPath None SampleWorkspace.resolvedPreset []).
  reflexivity.
Defined.


(** * Further properties *)

(** ** Strings, continued *)

Lemma append_nil_r (s : string) : s ++ "" = s.
Proof. induction s as [|c s IH]; [reflexivity |]. rewrite append_cons. now rewrite IH. Qed.

Lemma append_assoc (a b c : string) : (a ++ b) ++ c = a ++ b ++ c.
Proof.
  induction a as [|x a IH]; [reflexivity |].
  rewrite !append_cons. now rewrite IH.
Qed.

Lemma length_append (a b : string) :
  String.length (a ++ b) = (String.length a + String.length b)%nat.
Proof.
  induction a as [|x a IH]; [reflexivity |].
  rewrite append_cons. cbn [String.length]. now rewrite IH.
Qed.

Lemma take_append (a b : string) : Js.take (String.length a) (a ++ b) = a.
Proof.
  induction a as [|x a IH].
  - destruct b; reflexivity.
  - rewrite append_cons. cbn [String.length Js.take]. now rewrite IH.
Qed.

Lemma drop_append (a b : string) : Js.drop (String.length a) (a ++ b) = b.
Proof.
  induction a as [|x a IH].
  - destruct b; reflexivity.
  - rewrite append_cons. cbn [String.length Js.drop]. exact IH.
Qed.

Lemma removeWhiteSpace_append (a b : string) :
  Js.removeWhiteSpace (a ++ b) = Js.removeWhiteSpace a ++ Js.removeWhiteSpace b.
Proof.
  induction a as [|x a IH]; [reflexivity |].
  rewrite append_cons. cbn [Js.removeWhiteSpace].
  destruct (Js.isWhiteSpace x); [exact IH |].
  rewrite append_cons. now rewrite IH.
Qed.

Lemma removeWhiteSpace_blank (w : string) :
  (forall c, In c (list_ascii_of_string w) -> Js.isWhiteSpace c = true) ->
  Js.removeWhiteSpace w = "".
Proof.
  induction w as [|x w IH]; [reflexivity |].
  intros H. cbn [Js.removeWhiteSpace].
  rewrite (H x) by (left; reflexivity).
  apply IH. intros c Hc. apply H. now right.
Qed.

Lemma endsWith_append (a suffix : string) :
  Js.endsWith suffix (a ++ suffix) = true.
Proof.
  unfold Js.endsWith. rewrite length_append.
  replace (String.length a + String.length suffix - String.length suffix)%nat
    with (String.length a) by lia.
  rewrite drop_append, String.eqb_refl, andb_true_r.
  apply Nat.leb_le. lia.
Qed.

(** Cutting a string at an index, whatever the index, loses nothing. *)
Lemma slice_split (s : string) (i : Z) :
  Js.slice s 0 i ++ Js.slice_from s i = s.
Proof.
  unfold Js.slice, Js.slice_from.
  assert (H0 : Js.clamp (String.length s) 0 = 0%nat).
  { apply clamp_inside. lia. }
  rewrite H0, Nat.sub_0_r. change (Js.drop 0 s) with s. apply take_drop.
Qed.

(** X1: [checkIsCommaNeeded] does not see white space: a run of white
    space put anywhere in the text leaves the answer as it is. *)
Theorem checkIsCommaNeeded_ignores_white_space (a w b : string) :
  (forall c, In c (list_ascii_of_string w) -> Js.isWhiteSpace c = true) ->
  checkIsCommaNeeded (a ++ w ++ b) = checkIsCommaNeeded (a ++ b).
Proof.
  intros Hw. unfold checkIsCommaNeeded.
  rewrite !removeWhiteSpace_append, (removeWhiteSpace_blank w Hw).
  reflexivity.
Qed.

Lemma checkIsCommaNeeded_ignores_white_space_witness :
  checkIsCommaNeeded ("['a'," ++ (" " ++ Js.nl ++ "  ") ++ "]")
  = checkIsCommaNeeded ("['a'," ++ "]").
Proof.
  apply checkIsCommaNeeded_ignores_white_space.
  intros c Hc. cbn in Hc.
  repeat (destruct Hc as [<- | Hc]; [reflexivity |]). contradiction.
Defined.

(** ** The static host *)

Lemma addRemoteToStaticHost_run (dk : Devkit) (opts : Schema)
    (hostProject : ProjectConfiguration) (t : Tree) (text : string)
    (node : ArrayLiteralExpression) :
  joinPathFragments dk [root hostProject; "module-federation.config.js"] <> "" ->
  files t !! joinPathFragments dk [root hostProject; "module-federation.config.js"]
  = Some text ->
  remotesArray dk (Some text) = Ok (Some node) ->
  fst (addRemoteToStaticHost dk opts hostProject t) = Ok tt
  /\ files (snd (addRemoteToStaticHost dk opts hostProject t))
     = <[joinPathFragments dk [root hostProject; "module-federation.config.js"]
         := Js.slice text 0 (getEnd node - 1)
            ++ (if checkIsCommaNeeded (getText node) then "," else "")
            ++ "'" ++ appName opts ++ "',"
            ++ Js.slice_from text (getEnd node - 1)]> (files t).
Proof.
  intros Hpath Hfile Hnode. unfold addRemoteToStaticHost.
  apply String.eqb_neq in Hpath. rewrite Hpath. mstep.
  rewrite (tree_exists_present _ text) by exact Hfile. mstep.
  rewrite Hfile, Hnode. mstep. split; reflexivity.
Qed.

(** X2: on a static host whose config file has a remotes array, the
    file is rewritten with the quoted application name and a comma put in
    at one place, preceded by a comma exactly when [checkIsCommaNeeded]
    asks for one; wherever the array is said to end, the text before and
    the text after the insertion make up the old file, so no character of
    it is lost or moved. *)
Theorem static_host_splices_remote (dk : Devkit) (opts : Schema)
    (hostProject : ProjectConfiguration) (t : Tree) (text : string)
    (node : ArrayLiteralExpression) :
  joinPathFragments dk [root hostProject; "module-federation.config.js"] <> "" ->
  files t !! joinPathFragments dk [root hostProject; "module-federation.config.js"]
  = Some text ->
  remotesArray dk (Some text) = Ok (Some node) ->
  exists before rest : string,
    text = before ++ rest
    /\ (0 <= getEnd node - 1 <= Z.of_nat (String.length text) ->
        Z.of_nat (String.length before) = getEnd node - 1)
    /\ fst (addRemoteToStaticHost dk opts hostProject t) = Ok tt
    /\ files (snd (addRemoteToStaticHost dk opts hostProject t))
       = <[joinPathFragments dk [root hostProject; "module-federation.config.js"]
           := before
              ++ (if checkIsCommaNeeded (getText node) then "," else "")
              ++ "'" ++ appName opts ++ "',"
              ++ rest]> (files t).
Proof.
  intros Hpath Hfile Hnode.
  destruct (addRemoteToStaticHost_run dk opts hostProject t text node
              Hpath Hfile Hnode) as [Hok Hfiles].
  exists (Js.slice text 0 (getEnd node - 1)),
         (Js.slice_from text (getEnd node - 1)).
  split; [symmetry; apply slice_split |].
  split; [| split; assumption].
  intros Hrange. rewrite slice_prefix by exact Hrange.
  rewrite length_take; lia.
Qed.

Lemma static_host_splices_remote_witness :
  exists before rest : string,
    snd Sample.configFile = before ++ rest
    /\ (0 <= 44 - 1 <= Z.of_nat (String.length (snd Sample.configFile)) ->
        Z.of_nat (String.length before) = 44 - 1)
    /\ fst (addRemoteToStaticHost Sample.devkit Sample.remote
              Sample.hostConfiguration Sample.bareHost) = Ok tt
    /\ files (snd (addRemoteToStaticHost Sample.devkit Sample.remote
                     Sample.hostConfiguration Sample.bareHost))
       = <[fst Sample.configFile
           := before
              ++ (if checkIsCommaNeeded "[]" then "," else "")
              ++ "'" ++ "shop" ++ "',"
              ++ rest]> (files Sample.bareHost).
Proof.
  apply (static_host_splices_remote Sample.devkit Sample.remote
           Sample.hostConfiguration Sample.bareHost (snd Sample.configFile)
           {| getEnd := 44; getText := "[]" |});
    solve [reflexivity | discriminate].
Defined.

(** X3: when the array found is the text [body]] of the file, between
    [pre] and [post], the new file is [pre], the array with the quoted
    name and a comma before its closing bracket, and [post]; the new
    array, whatever it held, ends in [,]] once white space is removed, so
    that [checkIsCommaNeeded] is [false] on it: registering a second
    remote puts no comma before its name. *)
Theorem static_host_array_then_needs_no_comma (dk : Devkit) (opts : Schema)
    (hostProject : ProjectConfiguration) (t : Tree)
    (pre body post : string) (node : ArrayLiteralExpression) :
  joinPathFragments dk [root hostProject; "module-federation.config.js"] <> "" ->
  files t !! joinPathFragments dk [root hostProject; "module-federation.config.js"]
  = Some (pre ++ (body ++ "]") ++ post) ->
  remotesArray dk (Some (pre ++ (body ++ "]") ++ post)) = Ok (Some node) ->
  getText node = body ++ "]" ->
  getEnd node = Z.of_nat (String.length pre + String.length (body ++ "]")) ->
  let array :=
    body ++ (if checkIsCommaNeeded (body ++ "]") then "," else "")
    ++ "'" ++ appName opts ++ "'," ++ "]" in
  files (snd (addRemoteToStaticHost dk opts hostProject t))
    !! joinPathFragments dk [root hostProject; "module-federation.config.js"]
  = Some (pre ++ array ++ post)
  /\ checkIsCommaNeeded array = false.
Proof.
  intros Hpath Hfile Hnode Htext Hend array.
  destruct (addRemoteToStaticHost_run dk opts hostProject t _ node
              Hpath Hfile Hnode) as [_ Hfiles].
  rewrite Hfiles, lookup_insert_eq. clear Hfiles.
  assert (Hcut : getEnd node - 1
                 = Z.of_nat (String.length (pre ++ body))).
  { rewrite Hend, !length_append. cbn [String.length]. lia. }
  assert (Hwhole : pre ++ (body ++ "]") ++ post = (pre ++ body) ++ "]" ++ post)
    by now rewrite !append_assoc.
  assert (Hin : 0 <= getEnd node - 1
                <= Z.of_nat (String.length (pre ++ (body ++ "]") ++ post))).
  { rewrite Hcut, Hwhole, (length_append (pre ++ body)). lia. }
  rewrite slice_prefix, slice_from_suffix by exact Hin.
  rewrite Hcut, Nat2Z.id, Hwhole, take_append, drop_append, Htext.
  split.
  - subst array. now rewrite !append_assoc.
  - subst array.
    set (sep := if checkIsCommaNeeded (body ++ "]") then "," else "").
    replace (body ++ sep ++ "'" ++ appName opts ++ "'," ++ "]")
      with ((body ++ sep ++ "'" ++ appName opts ++ "'") ++ ",]")
      by now rewrite !append_assoc.
    unfold checkIsCommaNeeded. rewrite removeWhiteSpace_append.
    change (Js.removeWhiteSpace ",]") with ",]".
    now rewrite endsWith_append.
Qed.

Lemma static_host_array_then_needs_no_comma_witness :
  let array :=
    "[" ++ (if checkIsCommaNeeded ("[" ++ "]") then "," else "")
    ++ "'" ++ "shop" ++ "'," ++ "]" in
  files (snd (addRemoteToStaticHost Sample.devkit Sample.remote
                Sample.hostConfiguration Sample.bareHost))
    !! fst Sample.configFile
  = Some ("module.exports = { name: 'host', remotes: " ++ array ++ " };")
  /\ checkIsCommaNeeded array = false.
Proof.
  apply (static_host_array_then_needs_no_comma Sample.devkit Sample.remote
           Sample.hostConfiguration Sample.bareHost
           "module.exports = { name: 'host', remotes: " "[" " };"
           {| getEnd := 44; getText := "[]" |});
    solve [reflexivity | discriminate].
Defined.

(** ** Registrations that stop before the first write *)

Lemma remote_of_host (opts : Schema) (h : string) :
  mfType opts = Some mfRemote -> host opts = Some h -> h <> "" ->
  isRemoteWithHost opts = true.
Proof.
  intros Hmf Hhost Hne. apply isRemoteWithHost_true.
  split; [exact Hmf | now exists h].
Qed.

(** X4: on a static host whose config file has no remotes array,
    registration throws a [TypeError], from the call on the missing node,
    and no file is written: the config file and [remotes.d.ts] are as
    before. *)
Theorem static_host_without_remotes_array_throws
    (dk : Devkit) (opts : Schema) (t : Tree) (h : string)
    (hostProject : ProjectConfiguration) (src text : string) :
  mfType opts = Some mfRemote ->
  host opts = Some h -> h <> "" ->
  projectConfigurationOf dk (files t) (Some h) = Ok hostProject ->
  sourceRoot hostProject = Some src ->
  files t !! joinPathFragments dk [src; "assets/module-federation.manifest.json"]
    = None ->
  joinPathFragments dk [root hostProject; "module-federation.config.js"] <> "" ->
  files t !! joinPathFragments dk [root hostProject; "module-federation.config.js"]
    = Some text ->
  remotesArray dk (Some text) = Ok None ->
  fst (addRemoteToHost dk opts t)
  = Throw (TypeError "Cannot read properties of undefined")
  /\ files (snd (addRemoteToHost dk opts t)) = files t.
Proof.
  intros Hmf Hhost Hne Hcfg Hsrc Hmanifest Hpath Hconfig Harray.
  unfold addRemoteToHost. rewrite (remote_of_host opts h Hmf Hhost Hne).
  unfold readProjectConfiguration, determineHostFederationType,
    addRemoteToStaticHost. mstep.
  rewrite Hhost, Hcfg. mstep. rewrite Hsrc. mstep.
  rewrite tree_exists_absent by exact Hmanifest. mstep.
  apply String.eqb_neq in Hpath. rewrite Hpath. mstep.
  rewrite (tree_exists_present _ text) by exact Hconfig. mstep.
  rewrite Hconfig, Harray. mstep. split; reflexivity.
Qed.

(** X5: on a dynamic host whose manifest does not parse, registration
    throws the error of the parser and no file is written: the manifest
    and [remotes.d.ts] are as before. *)
Theorem dynamic_host_with_bad_manifest_throws
    (dk : Devkit) (opts : Schema) (t : Tree) (h : string)
    (hostProject : ProjectConfiguration) (src text : string) (e : exn) :
  mfType opts = Some mfRemote ->
  host opts = Some h -> h <> "" ->
  projectConfigurationOf dk (files t) (Some h) = Ok hostProject ->
  sourceRoot hostProject = Some src ->
  files t !! joinPathFragments dk [src; "assets/module-federation.manifest.json"]
    = Some text ->
  parseJson dk text = Throw e ->
  fst (addRemoteToHost dk opts t) = Throw e
  /\ files (snd (addRemoteToHost dk opts t)) = files t.
Proof.
  intros Hmf Hhost Hne Hcfg Hsrc Hmanifest Hparse.
  unfold addRemoteToHost. rewrite (remote_of_host opts h Hmf Hhost Hne).
  unfold readProjectConfiguration, determineHostFederationType,
    addRemoteToDynamicHost, updateJson. mstep.
  rewrite Hhost, Hcfg. mstep. rewrite Hsrc. mstep.
  rewrite (tree_exists_present _ text) by exact Hmanifest. mstep.
  rewrite (tree_exists_present _ text) by exact Hmanifest. mstep.
  rewrite Hmanifest. mstep. rewrite Hparse. split; reflexivity.
Qed.

(** X6: the manifest of a dynamic host need not be an object. The value
    written is always an object that maps the application name to the
    URL and has, beside it, the own properties of the old value; for a
    manifest that is [null], a boolean or a number it is the object with
    that one key. *)
Theorem dynamic_host_manifest_becomes_object
    (dk : Devkit) (opts : Schema) (path : string) (t : Tree)
    (text : string) (value : json) :
  files t !! path = Some text ->
  parseJson dk text = Ok value ->
  exists updated : gmap string json,
    fst (addRemoteToDynamicHost dk opts path t) = Ok tt
    /\ files (snd (addRemoteToDynamicHost dk opts path t)) !! path
       = Some (serializeJson dk (JObject updated))
    /\ updated !! appName opts = Some (JString (remoteUrl opts))
    /\ (forall key, key <> appName opts ->
          updated !! key = spread value !! key)
    /\ (match value with
        | JNull | JBool _ | JNumber _ =>
            updated = {[ appName opts := JString (remoteUrl opts) ]}
        | JArray items =>
            forall i item, items !! i = Some item ->
              indexKey i <> appName opts ->
              updated !! indexKey i = Some item
        | _ => True
        end).
Proof.
  intros Hfile Hparse.
  exists (<[appName opts := JString (remoteUrl opts)]> (spread value)).
  unfold addRemoteToDynamicHost.
  rewrite (updateJson_run dk path (withRemote opts) t text value Hfile Hparse).
  cbn [fst snd files withRemote].
  split; [reflexivity |].
  split; [apply lookup_insert_eq |].
  split; [apply lookup_insert_eq |].
  split; [intros key Hkey; now apply lookup_insert_ne |].
  destruct value as [| b | n | s | items | members]; cbn [spread];
    try exact I; try (now rewrite insert_empty).
  intros i item Hitem Hkey. rewrite lookup_insert_ne by (now apply not_eq_sym).
  unfold indexed. apply elem_of_list_to_map.
  - rewrite fmap_imap. cbn.
    apply NoDup_alt. intros j1 j2 k.
    rewrite !list_lookup_imap. 
    intros H1 H2.
    destruct (items !! j1) eqn:E1; [| discriminate].
    destruct (items !! j2) eqn:E2; [| discriminate].
    cbn in H1, H2. injection H1 as <-. injection H2 as H2.
    unfold indexKey in H2. apply (inj pretty) in H2. lia.
  - apply elem_of_lookup_imap. exists i, item. split; [reflexivity | exact Hitem].
Qed.

(** ** Which files a registration can change *)

Section Frames.

Context {A B : Type}.

Lemma keeps_ret (p : string) (a : A) : keeps p (ret a).
Proof. intros t. reflexivity. Qed.

Lemma keeps_throw (p : string) (e : exn) : keeps p (throw e : M A).
Proof. intros t. reflexivity. Qed.

Lemma keeps_lift (p : string) (r : result A) : keeps p (lift r).
Proof. intros t. reflexivity. Qed.

Lemma keeps_bind (p : string) (m : M A) (k : A -> M B) :
  keeps p m -> (forall a, keeps p (k a)) -> keeps p (bind m k).
Proof.
  intros Hm Hk t. unfold bind. specialize (Hm t).
  destruct (m t) as [[a | e] t1]; cbn [snd] in *.
  - now rewrite (Hk a t1).
  - exact Hm.
Qed.

Lemma keeps_bind_ret (p : string) (a : A) (k : A -> M B) :
  keeps p (k a) -> keeps p (bind (ret a) k).
Proof. intros Hk t. exact (Hk t). Qed.

Lemma keeps_bind_throw (p : string) (e : exn) (k : A -> M B) :
  keeps p (bind (throw e) k).
Proof. intros t. reflexivity. Qed.

End Frames.

Lemma keeps_exists (p path : string) : keeps p (tree_exists path).
Proof. intros t. reflexivity. Qed.

Lemma keeps_read (p path : string) : keeps p (tree_read path).
Proof. intros t. reflexivity. Qed.

Lemma keeps_write (p path content : string) :
  p <> path -> keeps p (tree_write path content).
Proof.
  intros Hne t. cbn. apply lookup_insert_ne. now apply not_eq_sym.
Qed.

Lemma keeps_nonNull (p : string) (o : option string) : keeps p (nonNull o).
Proof. destruct o; [apply keeps_ret | apply keeps_throw]. Qed.

Lemma keeps_readProjectConfiguration (dk : Devkit) (p : string)
    (project : option string) :
  keeps p (readProjectConfiguration dk project).
Proof. intros t. reflexivity. Qed.

(** Closes a frame goal on a computation built from the operations
    above; writes leave their inequality to [tac]. *)
Ltac frame_with tac :=
  repeat match goal with
    | |- keeps _ (ret _) => apply keeps_ret
    | |- keeps _ (throw _) => apply keeps_throw
    | |- keeps _ (lift _) => apply keeps_lift
    | |- keeps _ (tree_exists _) => apply keeps_exists
    | |- keeps _ (tree_read _) => apply keeps_read
    | |- keeps _ (nonNull _) => apply keeps_nonNull
    | |- keeps _ (readProjectConfiguration _ _) =>
        apply keeps_readProjectConfiguration
    | |- keeps _ (tree_write _ _) => apply keeps_write; tac
    | |- keeps _ (bind (ret _) _) => apply keeps_bind_ret
    | |- keeps _ (bind (throw _) _) => apply keeps_bind_throw
    | |- keeps _ (bind _ _) => apply keeps_bind; [| intros ?]
    | |- keeps _ (if ?b then _ else _) => destruct b; cbv beta iota
    | |- keeps _ (match ?x with _ => _ end) => destruct x; cbv beta iota
    end.

Lemma keeps_updateJson (dk : Devkit) (p path : string)
    (updater : json -> json) :
  p <> path -> keeps p (updateJson dk path updater).
Proof. intros Hne. unfold updateJson. frame_with assumption. Qed.

Lemma keeps_addRemoteToStaticHost (dk : Devkit) (p : string) (opts : Schema)
    (hostProject : ProjectConfiguration) :
  p <> joinPathFragments dk [root hostProject; "module-federation.config.js"] ->
  keeps p (addRemoteToStaticHost dk opts hostProject).
Proof. intros Hne. unfold addRemoteToStaticHost. frame_with assumption. Qed.

Lemma keeps_patchAppComponentTemplate (dk : Devkit) (p : string)
    (opts : Schema) (cfg : ProjectConfiguration) :
  (forall src, sourceRoot cfg = Some src ->
     p <> joinPathFragments dk [src; "app/app.component.html"]) ->
  keeps p (patchAppComponentTemplate dk opts cfg).
Proof.
  intros Hne. unfold patchAppComponentTemplate, joinPath.
  destruct (sourceRoot cfg) as [src|]; cbv beta iota; [| frame_with idtac].
  specialize (Hne src eq_refl). frame_with assumption.
Qed.

Lemma keeps_addLazyLoadedRouteToHostAppModule (dk : Devkit) (p : string)
    (opts : Schema) (ft : FederationType) :
  (forall fs cfg src,
     projectConfigurationOf dk fs (host opts) = Ok cfg ->
     sourceRoot cfg = Some src ->
     p <> src ++ "/bootstrap.ts"
     /\ p <> src ++ "/app/app.module.ts"
     /\ p <> joinPathFragments dk [src; "app/app.component.html"]) ->
  keeps p (addLazyLoadedRouteToHostAppModule dk opts ft).
Proof.
  intros Hne t. unfold addLazyLoadedRouteToHostAppModule.
  unfold bind at 1. unfold readProjectConfiguration at 1.
  destruct (projectConfigurationOf dk (files t) (host opts))
    as [cfg | e] eqn:Hcfg; [| reflexivity].
  match goal with
  | |- files (snd (?m ?t1)) !! _ = _ =>
      change (files t) with (files t1); generalize t1;
      change (keeps p m)
  end.
  unfold joinPath at 1.
  destruct (sourceRoot cfg) as [src|] eqn:Hsrc; cbv beta iota;
    [| frame_with idtac].
  destruct (Hne _ cfg src Hcfg Hsrc) as (Hboot & Hmodule & Htemplate).
  assert (Hrouting : forall b, p <> pathToHostRootRouting cfg b).
  { intros [|]; unfold pathToHostRootRouting; rewrite Hsrc; assumption. }
  unfold insertImport, addRoute, addStandaloneRoute.
  frame_with ltac:(first [apply Hrouting | idtac]).
  all: try (apply keeps_patchAppComponentTemplate;
            intros src' Hsrc'; rewrite Hsrc in Hsrc'; now injection Hsrc' as <-).
Qed.

(** X7: registration changes at most the config file or the manifest of
    the host, [remotes.d.ts], the routing file ([bootstrap.ts] or
    [app/app.module.ts]) and the app template: any other path holds
    after the call what it held before, whether the call returns or
    throws. *)
Theorem addRemoteToHost_keeps_other_files (dk : Devkit) (opts : Schema)
    (t : Tree) (p : string) :
  (forall fs hostProject src,
     projectConfigurationOf dk fs (host opts) = Ok hostProject ->
     sourceRoot hostProject = Some src ->
     p <> joinPathFragments dk [root hostProject; "module-federation.config.js"]
     /\ p <> joinPathFragments dk [src; "assets/module-federation.manifest.json"]
     /\ p <> joinPathFragments dk [src; "remotes.d.ts"]
     /\ p <> src ++ "/bootstrap.ts"
     /\ p <> src ++ "/app/app.module.ts"
     /\ p <> joinPathFragments dk [src; "app/app.component.html"]) ->
  files (snd (addRemoteToHost dk opts t)) !! p = files t !! p.
Proof.
  intros Hne. unfold addRemoteToHost.
  destruct (isRemoteWithHost opts); [| reflexivity].
  unfold bind at 1. unfold readProjectConfiguration at 1.
  destruct (projectConfigurationOf dk (files t) (host opts))
    as [hostProject | e] eqn:Hcfg; [| reflexivity].
  match goal with
  | |- files (snd (?m ?t1)) !! _ = _ =>
      change (files t) with (files t1); generalize t1;
      change (keeps p m)
  end.
  unfold joinPath.
  destruct (sourceRoot hostProject) as [src|] eqn:Hsrc; cbv beta iota;
    [| frame_with idtac].
  destruct (Hne _ hostProject src Hcfg Hsrc)
    as (Hconfig & Hmanifest & Hdecl & _).
  unfold determineHostFederationType, addRemoteToDynamicHost.
  frame_with assumption.
  all: first
    [ now apply keeps_updateJson
    | now apply keeps_addRemoteToStaticHost
    | apply keeps_addLazyLoadedRouteToHostAppModule;
      intros fs cfg src' Hcfg' Hsrc';
      destruct (Hne fs cfg src' Hcfg' Hsrc') as (_ & _ & _ & H1 & H2 & H3);
      auto ].
Qed.

(** ** What is written stays written *)

(** X8: on a dynamic host nothing is rolled back. Once the manifest
    parses, the manifest holds the merged object and [remotes.d.ts] its
    old content (none counts as empty) followed by the declaration of
    the remote, whatever the routing step does afterwards, even when it
    throws. *)
Theorem dynamic_host_writes_survive_routing
    (dk : Devkit) (opts : Schema) (t : Tree) (h : string)
    (hostProject : ProjectConfiguration) (src text : string) (value : json) :
  mfType opts = Some mfRemote ->
  host opts = Some h -> h <> "" ->
  (forall fs, projectConfigurationOf dk fs (Some h) = Ok hostProject) ->
  sourceRoot hostProject = Some src ->
  let manifest :=
    joinPathFragments dk [src; "assets/module-federation.manifest.json"] in
  let declarations := joinPathFragments dk [src; "remotes.d.ts"] in
  files t !! manifest = Some text ->
  parseJson dk text = Ok value ->
  manifest <> declarations ->
  (forall p, p = manifest \/ p = declarations ->
     p <> src ++ "/bootstrap.ts"
     /\ p <> src ++ "/app/app.module.ts"
     /\ p <> joinPathFragments dk [src; "app/app.component.html"]) ->
  files (snd (addRemoteToHost dk opts t)) !! manifest
  = Some (serializeJson dk (withRemote opts value))
  /\ files (snd (addRemoteToHost dk opts t)) !! declarations
     = Some (match files t !! declarations with
             | Some old => old
             | None => ""
             end
             ++ Js.nl ++ "declare module '" ++ appName opts ++ "/"
             ++ (if standalone opts then "Routes" else "Module") ++ "';").
Proof.
  intros Hmf Hhost Hne Hcfg Hsrc manifest declarations Hfile Hparse
    Hdistinct Hother.
  remember manifest as m eqn:Hm. remember declarations as d eqn:Hd.
  subst manifest declarations.
  assert (Hkeeps : forall p, p = m \/ p = d ->
            keeps p (addLazyLoadedRouteToHostAppModule dk opts dynamic)).
  { intros p Hp. apply keeps_addLazyLoadedRouteToHostAppModule.
    intros fs cfg src' Hcfg' Hsrc'. rewrite Hhost, Hcfg in Hcfg'.
    injection Hcfg' as <-. rewrite Hsrc in Hsrc'. injection Hsrc' as <-.
    now apply Hother. }
  assert (Hrun : exists t3 : Tree,
            files t3
            = <[d := match files t !! d with Some old => old | None => "" end
                     ++ declarationLine opts]>
                (<[m := serializeJson dk (withRemote opts value)]> (files t))
            /\ addRemoteToHost dk opts t
               = addLazyLoadedRouteToHostAppModule dk opts dynamic t3).
  { unfold addRemoteToHost. rewrite (remote_of_host opts h Hmf Hhost Hne).
    unfold readProjectConfiguration at 1, determineHostFederationType,
      addRemoteToDynamicHost. mstep.
    rewrite Hhost, Hcfg. mstep. rewrite Hsrc. mstep.
    rewrite <- Hm, <- Hd.
    rewrite (tree_exists_present _ text) by exact Hfile. mstep.
    rewrite (updateJson_run dk m (withRemote opts) _ text value)
      by assumption.
    mstep.
    assert (Hdecl : forall new : string,
              <[m := new]> (files t) !! d = files t !! d)
      by (intros new; now apply lookup_insert_ne).
    destruct (files t !! d) as [old|] eqn:Hold.
    - rewrite (tree_exists_present _ old) by (cbn [files]; now rewrite Hdecl).
      mstep. rewrite Hdecl. cbn [Js.ofNullable].
      eexists. split; [| reflexivity]. reflexivity.
    - rewrite tree_exists_absent by (cbn [files]; now rewrite Hdecl).
      mstep. cbn [Js.ofNullable].
      eexists. split; [| reflexivity]. reflexivity. }
  destruct Hrun as (t3 & Hfiles & ->).
  rewrite (Hkeeps m) by now left.
  rewrite (Hkeeps d) by now right.
  rewrite Hfiles, lookup_insert_eq.
  rewrite lookup_insert_ne by (now apply not_eq_sym).
  rewrite lookup_insert_eq. split; reflexivity.
Qed.

(** X9: the routing file ends up with every edit made to it. On a
    dynamic host the route is added to the source that already has the
    import of [loadRemoteModule], for a module as for a standalone route
    array; on a static host no import is added. Which route is added is
    decided on the text as first read: the module route when it has an
    [@NgModule], the standalone route otherwise. A failure of the menu
    step afterwards does not undo it. *)
Theorem routing_file_gets_import_and_route
    (dk : Devkit) (opts : Schema) (ft : FederationType) (t : Tree)
    (cfg : ProjectConfiguration) (src boot routing source final : string) :
  projectConfigurationOf dk (files t) (host opts) = Ok cfg ->
  sourceRoot cfg = Some src ->
  files t !! joinPathFragments dk [src; "bootstrap.ts"] = Some boot ->
  files t !! pathToHostRootRouting cfg
               (negb (Js.includes "bootstrapModule" boot)) = Some routing ->
  Js.includes "RouterModule.forRoot(" routing = true ->
  joinPathFragments dk [src; "app/app.component.html"]
  <> pathToHostRootRouting cfg (negb (Js.includes "bootstrapModule" boot)) ->
  match ft with
  | dynamic =>
      insertImportText dk routing "loadRemoteModule" "@nrwl/angular/mf"
      = Ok source
  | static => source = routing
  end ->
  (if Js.includes "@NgModule" routing
   then addRouteText dk source (moduleRoute opts ft)
   else addStandaloneRouteText dk source (standaloneRoute opts ft))
  = Ok final ->
  files (snd (addLazyLoadedRouteToHostAppModule dk opts ft t))
    !! pathToHostRootRouting cfg (negb (Js.includes "bootstrapModule" boot))
  = Some final.
Proof.
  intros Hcfg Hsrc Hboot Hrouting HforRoot Hdistinct Hsource Hfinal.
  assert (Hpatch : keeps (pathToHostRootRouting cfg
                            (negb (Js.includes "bootstrapModule" boot)))
                     (patchAppComponentTemplate dk opts cfg)).
  { apply keeps_patchAppComponentTemplate. intros src' Hsrc'.
    rewrite Hsrc in Hsrc'. injection Hsrc' as <-. now apply not_eq_sym. }
  unfold addLazyLoadedRouteToHostAppModule, readProjectConfiguration. mstep.
  rewrite Hcfg. mstep. rewrite Hsrc. mstep. rewrite Hboot. mstep.
  rewrite (tree_exists_present _ routing) by exact Hrouting. mstep.
  rewrite Hrouting. mstep. rewrite HforRoot. mstep.
  unfold insertImport, addRoute, addStandaloneRoute. mstep.
  destruct ft.
  - rewrite Hsource. mstep.
    destruct (Js.includes "@NgModule" routing); mstep.
    + rewrite Hfinal. mstep. rewrite Hpatch. cbn [files].
      apply lookup_insert_eq.
    + rewrite lookup_insert_eq. mstep. rewrite Hfinal. mstep.
      rewrite Hpatch. cbn [files]. apply lookup_insert_eq.
  - subst source. mstep.
    destruct (Js.includes "@NgModule" routing); mstep.
    + rewrite Hfinal. mstep. rewrite Hpatch. cbn [files].
      apply lookup_insert_eq.
    + rewrite Hrouting. mstep. rewrite Hfinal. mstep.
      rewrite Hpatch. cbn [files]. apply lookup_insert_eq.
Qed.

Lemma static_host_without_remotes_array_throws_witness :
  fst (addRemoteToHost Sample.devkit Sample.remote SampleEdge.arraylessHost)
  = Throw (TypeError "Cannot read properties of undefined")
  /\ files (snd (addRemoteToHost Sample.devkit Sample.remote
                   SampleEdge.arraylessHost))
     = files SampleEdge.arraylessHost.
Proof.
  apply (static_host_without_remotes_array_throws Sample.devkit Sample.remote
           SampleEdge.arraylessHost "host" Sample.hostConfiguration
           "apps/host/src" "module.exports = { name: 'host' };");
    solve [reflexivity | discriminate].
Defined.

Lemma dynamic_host_with_bad_manifest_throws_witness :
  fst (addRemoteToHost Sample.devkit Sample.remote
         SampleEdge.brokenManifestHost)
  = Throw (Error "Cannot parse")
  /\ files (snd (addRemoteToHost Sample.devkit Sample.remote
                   SampleEdge.brokenManifestHost))
     = files SampleEdge.brokenManifestHost.
Proof.
  apply (dynamic_host_with_bad_manifest_throws Sample.devkit Sample.remote
           SampleEdge.brokenManifestHost "host" Sample.hostConfiguration
           "apps/host/src" "{ shop: " (Error "Cannot parse"));
    solve [reflexivity | discriminate].
Defined.

Lemma dynamic_host_manifest_becomes_object_witness :
  exists updated : gmap string json,
    fst (addRemoteToDynamicHost SampleEdge.devkit Sample.remote
           (fst Sample.manifestFile) SampleEdge.nullManifestHost) = Ok tt
    /\ files (snd (addRemoteToDynamicHost SampleEdge.devkit Sample.remote
                     (fst Sample.manifestFile) SampleEdge.nullManifestHost))
         !! fst Sample.manifestFile
       = Some (Sample.serialize (JObject updated))
    /\ updated !! "shop" = Some (JString "http://localhost:4201")
    /\ (forall key, key <> "shop" -> updated !! key = spread JNull !! key)
    /\ updated = {[ "shop" := JString "http://localhost:4201" ]}.
Proof.
  apply (dynamic_host_manifest_becomes_object SampleEdge.devkit Sample.remote
           (fst Sample.manifestFile) SampleEdge.nullManifestHost "null" JNull);
    reflexivity.
Defined.

Lemma addRemoteToHost_keeps_other_files_witness :
  files (snd (addRemoteToHost Sample.devkit Sample.remote
                SampleEdge.hostWithMain))
    !! fst SampleEdge.mainFile
  = files SampleEdge.hostWithMain !! fst SampleEdge.mainFile.
Proof.
  apply (addRemoteToHost_keeps_other_files Sample.devkit Sample.remote
           SampleEdge.hostWithMain (fst SampleEdge.mainFile)).
  intros fs hostProject src Hcfg Hsrc.
  injection Hcfg as <-. injection Hsrc as <-.
  repeat split; discriminate.
Defined.

Lemma dynamic_host_writes_survive_routing_witness :
  files (snd (addRemoteToHost Sample.devkit Sample.remote Sample.dynamicHost))
    !! fst Sample.manifestFile
  = Some (Sample.serialize (withRemote Sample.remote (JObject Sample.shopObject)))
  /\ files (snd (addRemoteToHost Sample.devkit Sample.remote
                   Sample.dynamicHost))
       !! "apps/host/src/remotes.d.ts"
     = Some (match files Sample.dynamicHost !! "apps/host/src/remotes.d.ts" with
             | Some old => old
             | None => ""
             end
             ++ Js.nl ++ "declare module '" ++ "shop" ++ "/"
             ++ (if false then "Routes" else "Module") ++ "';").
Proof.
  apply (dynamic_host_writes_survive_routing Sample.devkit Sample.remote
           Sample.dynamicHost "host" Sample.hostConfiguration "apps/host/src"
           Sample.shopManifest (JObject Sample.shopObject));
    try solve [reflexivity | discriminate | intros; reflexivity].
  intros p [-> | ->]; repeat split; discriminate.
Defined.

Lemma routing_file_gets_import_and_route_witness :
  files (snd (addLazyLoadedRouteToHostAppModule Sample.devkit Sample.remote
                dynamic SampleEdge.routedDynamicHost))
    !! "apps/host/src/app/app.module.ts"
  = Some (("import { loadRemoteModule } from '@nrwl/angular/mf';" ++ Js.nl
           ++ snd Sample.routedModule)
          ++ Js.nl ++ moduleRoute Sample.remote dynamic).
Proof.
  apply (routing_file_gets_import_and_route Sample.devkit Sample.remote
           dynamic SampleEdge.routedDynamicHost Sample.hostConfiguration
           "apps/host/src" (snd Sample.bootstrapFile)
           (snd Sample.routedModule)
           ("import { loadRemoteModule } from '@nrwl/angular/mf';" ++ Js.nl
            ++ snd Sample.routedModule));
    solve [reflexivity | discriminate].
Defined.

(** ** The preset resolver, continued *)

Section ResolverFacts.

Context {WebpackConfig BaseCypressPreset : Type}.
Variable ws : Workspace WebpackConfig BaseCypressPreset.

(** The key under which [getConfigByPath] looks the path up. *)
Lemma getConfigByPath_key (graph : ProjectGraph) (path : string)
    (isFile : bool) (allFiles : gmap string string) :
  lstatIsFile ws path = Ok isFile ->
  allFilesOf ws graph = Ok allFiles ->
  getConfigByPath ws graph path
  = let normalized :=
      if isFile
      then Js.removeFirst (extname ws path)
             (relative ws (workspaceRoot ws) path)
      else relative ws (workspaceRoot ws) path in
    let projectName := allFiles !! normalized in
    let key := Js.ofOptString projectName in
    if negb (Js.truthy projectName)
       || negb (bool_decide (is_Some (nodeData graph key)))
    then Throw (Error (configNotFoundMessage _ _ ws graph normalized projectName))
    else match nodeData (fillName graph key) key with
         | Some cfg => Ok (fillName graph key, cfg)
         | None => Throw (TypeError "Cannot read properties of undefined")
         end.
Proof.
  intros Hstat Hfiles. unfold getConfigByPath, rbind.
  now rewrite Hstat, Hfiles.
Qed.

Lemma nodeData_fillName_same (graph : ProjectGraph) (key : string)
    (cfg : ProjectConfiguration) :
  nodeData graph key = Some cfg ->
  nodeData (fillName graph key) key
  = Some {| name := orDefault (name cfg) key;
            root := root cfg;
            sourceRoot := sourceRoot cfg;
            targets := targets cfg |}.
Proof.
  unfold nodeData, fillName. cbn [nodes].
  rewrite lookup_alter. case_decide; [| congruence].
  destruct (nodes graph !! key) as [node|]; cbn; [| discriminate].
  now intros ->.
Qed.

Lemma fillName_idempotent (graph : ProjectGraph) (key : string) :
  fillName (fillName graph key) key = fillName graph key.
Proof.
  unfold fillName. cbn [nodes dependencies]. f_equal.
  rewrite alter_alter_eq. apply alter_ext.
  intros node _. cbn. destruct node as [ty [cfg|]]; cbn; [| reflexivity].
  now destruct (name cfg).
Qed.

(** X10: when the path, made relative to the workspace root and without
    its extension if it is a file, belongs to a project that has data in
    the graph, [getConfigByPath] returns that data with its name filled
    in: the name it had, or the key of the project when it had none;
    root, source root and targets are the ones of the graph. The graph it
    leaves behind holds the same configuration under that key, and is
    the old graph everywhere else. *)
Theorem getConfigByPath_found (graph : ProjectGraph) (path : string)
    (isFile : bool) (allFiles : gmap string string) (projectName : string)
    (cfg : ProjectConfiguration) :
  lstatIsFile ws path = Ok isFile ->
  allFilesOf ws graph = Ok allFiles ->
  allFiles !! (if isFile
               then Js.removeFirst (extname ws path)
                      (relative ws (workspaceRoot ws) path)
               else relative ws (workspaceRoot ws) path) = Some projectName ->
  projectName <> "" ->
  nodeData graph projectName = Some cfg ->
  exists (graph' : ProjectGraph) (found : ProjectConfiguration),
    getConfigByPath ws graph path = Ok (graph', found)
    /\ name found = Some (match name cfg with
                          | Some given => given
                          | None => projectName
                          end)
    /\ root found = root cfg
    /\ sourceRoot found = sourceRoot cfg
    /\ targets found = targets cfg
    /\ nodeData graph' projectName = Some found
    /\ (forall other, other <> projectName ->
          nodes graph' !! other = nodes graph !! other)
    /\ dependencies graph' = dependencies graph.
Proof.
  intros Hstat Hfiles Hname Hne Hdata.
  rewrite (getConfigByPath_key graph path isFile allFiles Hstat Hfiles).
  cbv zeta. rewrite Hname. cbn [Js.ofOptString Js.truthy].
  apply String.eqb_neq in Hne. rewrite Hne, Hdata.
  rewrite bool_decide_eq_true_2 by (now eexists). cbn [negb orb].
  rewrite (nodeData_fillName_same graph projectName cfg Hdata).
  eexists _, _. split; [reflexivity |].
  cbn [name root sourceRoot targets].
  split; [now destruct (name cfg) |].
  repeat (split; [reflexivity |]).
  split; [apply (nodeData_fillName_same graph projectName cfg Hdata) |].
  split; [| reflexivity].
  intros other Hother. unfold fillName. cbn [nodes].
  now apply lookup_alter_ne.
Qed.

(** X11: [getConfigByPath] fills the name in once. Called again on the
    graph it left behind (whose file map is the same), it returns the
    same configuration and leaves that graph as it is. *)
Theorem getConfigByPath_again (graph graph' : ProjectGraph) (path : string)
    (found : ProjectConfiguration) :
  getConfigByPath ws graph path = Ok (graph', found) ->
  allFilesOf ws graph' = allFilesOf ws graph ->
  getConfigByPath ws graph' path = Ok (graph', found).
Proof.
  intros Hfirst Hsame.
  destruct (lstatIsFile ws path) as [isFile | e] eqn:Hstat;
    [| unfold getConfigByPath, rbind in Hfirst; now rewrite Hstat in Hfirst].
  destruct (allFilesOf ws graph) as [allFiles | e] eqn:Hfiles;
    [| unfold getConfigByPath, rbind in Hfirst;
       now rewrite Hstat, Hfiles in Hfirst].
  rewrite (getConfigByPath_key graph path isFile allFiles Hstat Hfiles)
    in Hfirst.
  rewrite (getConfigByPath_key graph' path isFile allFiles Hstat)
    by (now rewrite Hsame).
  cbv zeta in *.
  set (projectName := allFiles !! _) in *.
  set (key := Js.ofOptString projectName) in *.
  destruct (negb (Js.truthy projectName)); [discriminate |].
  cbn [orb] in *.
  destruct (nodeData graph key) as [cfg|] eqn:Hdata;
    [| rewrite bool_decide_eq_false_2 in Hfirst by (now intros [? ?]);
       discriminate].
  rewrite bool_decide_eq_true_2 in Hfirst by (now eexists).
  cbn [negb] in Hfirst.
  destruct (nodeData (fillName graph key) key) as [cfg'|] eqn:Hfilled;
    [| discriminate].
  injection Hfirst as <- <-.
  rewrite fillName_idempotent, Hfilled.
  rewrite bool_decide_eq_true_2 by (now eexists). reflexivity.
Qed.

(** X12: when the path belongs to no project, or to a project with the
    empty name, or to a project that has no data in the graph,
    [getConfigByPath] throws the [Error] whose message reports the path
    looked up, the project name found and whether the graph has data for
    it; it is never a [TypeError]. *)
Theorem getConfigByPath_not_found (graph : ProjectGraph) (path : string)
    (isFile : bool) (allFiles : gmap string string) :
  lstatIsFile ws path = Ok isFile ->
  allFilesOf ws graph = Ok allFiles ->
  let normalized :=
    if isFile
    then Js.removeFirst (extname ws path) (relative ws (workspaceRoot ws) path)
    else relative ws (workspaceRoot ws) path in
  allFiles !! normalized = None
  \/ allFiles !! normalized = Some ""
  \/ (exists projectName,
        allFiles !! normalized = Some projectName
        /\ nodeData graph projectName = None) ->
  getConfigByPath ws graph path
  = Throw (Error
      (stripIndents ws
         ("Unable to find the project configuration that includes "
          ++ normalized ++ ". " ++ Js.nl
          ++ "      Found project name? "
          ++ Js.ofOptString (allFiles !! normalized) ++ ". " ++ Js.nl
          ++ "      Graph has data? "
          ++ Js.ofBool (bool_decide
               (is_Some (nodeData graph
                           (Js.ofOptString (allFiles !! normalized)))))))).
Proof.
  intros Hstat Hfiles normalized Hcase.
  rewrite (getConfigByPath_key graph path isFile allFiles Hstat Hfiles).
  cbv zeta. fold normalized. unfold configNotFoundMessage.
  destruct Hcase as [Hnone | [Hempty | (projectName & Hsome & Hdata)]].
  - rewrite Hnone. reflexivity.
  - rewrite Hempty. reflexivity.
  - rewrite Hsome. cbn [Js.ofOptString]. rewrite Hdata.
    rewrite bool_decide_eq_false_2 by (now intros [? ?]).
    now rewrite orb_true_r.
Qed.

(** X13: the executor context is built for any target name. A name that
    is not among the targets gives a context without a target, not an
    error; targets that are undefined give a [TypeError]. The context is
    never verbose, its root is the workspace root, and in its workspace
    the projects configuration wins over [nx.json] on the keys they
    share. *)
Theorem createExecutorContext_spec (graph : ProjectGraph)
    (targets : option (gmap string TargetConfiguration))
    (projectName : option string) (targetName : string)
    (configurationName : option string)
    (projectConfigs nxJson : gmap string json) :
  readProjectsConfigurationFromProjectGraph ws graph = Ok projectConfigs ->
  readNxJson ws = Ok nxJson ->
  match targets with
  | None =>
      createExecutorContext ws graph targets projectName targetName
        configurationName
      = Throw (TypeError "Cannot read properties of undefined")
  | Some known =>
      exists context,
        createExecutorContext ws graph targets projectName targetName
          configurationName = Ok context
        /\ ExecutorContext.target context = known !! targetName
        /\ ExecutorContext.targetName context = targetName
        /\ ExecutorContext.configurationName context = configurationName
        /\ ExecutorContext.projectName context = projectName
        /\ ExecutorContext.projectGraph context = graph
        /\ ExecutorContext.root context = workspaceRoot ws
        /\ ExecutorContext.isVerbose context = false
        /\ forall key,
             ExecutorContext.workspace context !! key
             = match projectConfigs !! key with
               | Some value => Some value
               | None => nxJson !! key
               end
  end.
Proof.
  intros Hprojects Hnx. unfold createExecutorContext, rbind.
  rewrite Hprojects. destruct targets as [known|]; [| reflexivity].
  rewrite Hnx. eexists. split; [reflexivity |].
  cbn. repeat (split; [reflexivity |]).
  intros key. rewrite lookup_union.
  destruct (projectConfigs !! key), (nxJson !! key); reflexivity.
Qed.

End ResolverFacts.

Section DefaultsFacts.

Context {WebpackConfig BaseCypressPreset : Type}.
Variable ws : Workspace WebpackConfig BaseCypressPreset.

Lemma orDefault_idempotent {A} (given : option A) (fallback : A) :
  orDefault (orDefault given fallback) fallback = orDefault given fallback.
Proof. now destruct given. Qed.

Lemma filled_orDefault {A} (given : option A) (fallback : A) :
  filled given fallback (orDefault given fallback).
Proof. unfold filled. now destruct given. Qed.

(** X14: [withSchemaDefaults] never replaces an option that was given:
    each of the eighteen defaulted fields holds the value read when there
    was one and the schema default otherwise, so all of them are defined;
    [optimization] and the other options pass through. Options that come
    back from it are a fixed point: read again, they are returned as they
    are. An error of [readTargetOptions] is passed on. *)
Theorem withSchemaDefaults_fills_missing_only (target : Target.t)
    (context : ExecutorContext.t) :
  match readTargetOptions ws webOptions target context with
  | Throw e => withSchemaDefaults ws target context = Throw e
  | Ok given =>
      exists o : WebWebpackExecutorOptions,
        withSchemaDefaults ws target context = Ok o
        /\ filled (compiler given) "babel" (compiler o)
        /\ filled (deleteOutputPath given) true (deleteOutputPath o)
        /\ filled (vendorChunk given) true (vendorChunk o)
        /\ filled (commonChunk given) true (commonChunk o)
        /\ filled (runtimeChunk given) true (runtimeChunk o)
        /\ filled (sourceMap given) (JBool true) (sourceMap o)
        /\ filled (assets given) [] (assets o)
        /\ filled (scripts given) [] (scripts o)
        /\ filled (styles given) [] (styles o)
        /\ filled (budgets given) [] (budgets o)
        /\ filled (namedChunks given) true (namedChunks o)
        /\ filled (outputHashing given) "none" (outputHashing o)
        /\ filled (extractCss given) true (extractCss o)
        /\ filled (memoryLimit given) 2048 (memoryLimit o)
        /\ filled (maxWorkers given) 2 (maxWorkers o)
        /\ filled (fileReplacements given) [] (fileReplacements o)
        /\ filled (buildLibsFromSource given) true (buildLibsFromSource o)
        /\ filled (generateIndexHtml given) true (generateIndexHtml o)
        /\ optimization o = optimization given
        /\ webOthers o = webOthers given
        /\ forall target' context',
             readTargetOptions ws webOptions target' context' = Ok o ->
             withSchemaDefaults ws target' context' = Ok o
  end.
Proof.
  unfold withSchemaDefaults, rbind.
  destruct (readTargetOptions ws webOptions target context) as [given | e];
    [| reflexivity].
  eexists. split; [reflexivity |]. cbn.
  repeat (split; [first [apply filled_orDefault | reflexivity] |]).
  intros target' context' Hread. rewrite Hread.
  cbn. now rewrite !orDefault_idempotent.
Qed.

(** X15: when every step of the resolution from the graph succeeds, the
    preset carries the configuration that [getWebConfig] built and
    nothing is logged. That configuration is built for the root and
    source root of the component-testing project, looked up in the graph
    under the name of the configuration found, as a dev server, with
    the options of the build target after defaults and normalisation
    against the source root of the build project, the script
    optimisation read off those options and the configuration named in
    the build target. *)
Theorem preset_from_graph (pathToConfig : string)
    (opts : option ReactComponentTestingOptions)
    (graph graph' : ProjectGraph) (found : ProjectConfiguration)
    (context : ExecutorContext.t) (cypress : CypressExecutorOptions)
    (buildTarget : string) (parsed : Target.t)
    (buildable ct : ProjectConfiguration) (buildContext : ExecutorContext.t)
    (defaulted normalized : WebWebpackExecutorOptions)
    (config : WebpackConfig) :
  readCachedProjectGraph ws = Ok graph ->
  getConfigByPath ws graph pathToConfig = Ok (graph', found) ->
  createExecutorContext ws graph' (targets found) (name found)
    (targetNameOf opts) (NX_CYPRESS_TARGET_CONFIGURATION ws) = Ok context ->
  readTargetOptions ws cypressOptions
    {| Target.project := name found;
       Target.target := targetNameOf opts;
       Target.configuration := NX_CYPRESS_TARGET_CONFIGURATION ws |}
    context = Ok cypress ->
  devServerTarget cypress = Some buildTarget ->
  buildTarget <> "" ->
  parseTargetString ws buildTarget = Ok parsed ->
  nodeData graph' (Js.ofOptString (Target.project parsed)) = Some buildable ->
  nodeData graph' (Js.ofOptString (name found)) = Some ct ->
  createExecutorContext ws graph' (targets buildable) (Target.project parsed)
    (Target.target parsed) (Some (Target.target parsed)) = Ok buildContext ->
  withSchemaDefaults ws parsed buildContext = Ok defaulted ->
  normalizeWebBuildOptions ws defaulted (workspaceRoot ws)
    (sourceRoot buildable) = Ok normalized ->
  getWebConfig ws (workspaceRoot ws) (root ct) (sourceRoot ct) normalized true
    (match optimization normalized with
     | Some (inl b) => b
     | Some (inr o) =>
         match OptimizationOptions.scripts o with
         | Some true => true
         | _ => false
         end
     | None => false
     end)
    (Target.configuration parsed) = Ok config ->
  nxComponentTestingPreset ws pathToConfig opts
  = (Ok {| basePreset := nxBaseCypressPreset ws pathToConfig;
           devServer := {| framework := "react";
                           bundler := "webpack";
                           webpackConfig := config |} |},
     []).
Proof.
  intros Hgraph Hfound Hcontext Hcypress Htarget Hne Hparsed Hbuildable Hct
    HbuildContext Hdefaults Hnormalized Hconfig.
  unfold nxComponentTestingPreset, graphWebpackConfig, rbind.
  rewrite Hgraph, Hfound. cbn [fst snd]. cbv zeta.
  rewrite Hcontext, Hcypress, Htarget.
  apply String.eqb_neq in Hne. rewrite Hne.
  unfold buildTargetWebpack, rbind. rewrite Hparsed, Hbuildable, Hct.
  rewrite HbuildContext, Hdefaults, Hnormalized.
  unfold isScriptOptimizeOn. rewrite Hconfig. reflexivity.
Qed.

End DefaultsFacts.

Lemma getConfigByPath_found_witness :
  exists (graph' : ProjectGraph) (found : ProjectConfiguration),
    getConfigByPath (SampleWorkspace.workspace None) SampleWorkspace.graph
      SampleWorkspace.configPath = Ok (graph', found)
    /\ name found = Some "app"
    /\ root found = "apps/app"
    /\ sourceRoot found = Some "apps/app/src"
    /\ targets found = targets SampleWorkspace.app
    /\ nodeData graph' "app" = Some found
    /\ (forall other, other <> "app" ->
          nodes graph' !! other = nodes SampleWorkspace.graph !! other)
    /\ dependencies graph' = dependencies SampleWorkspace.graph.
Proof.
  apply (getConfigByPath_found (SampleWorkspace.workspace None)
           SampleWorkspace.graph SampleWorkspace.configPath true
           {[ "apps/app/cypress.config" := "app" ]} "app" SampleWorkspace.app);
    solve [reflexivity | discriminate].
Defined.

Lemma getConfigByPath_again_witness :
  getConfigByPath (SampleWorkspace.workspace None)
    (fst SampleWorkspace.resolved) SampleWorkspace.configPath
  = Ok SampleWorkspace.resolved.
Proof.
  apply (getConfigByPath_again (SampleWorkspace.workspace None)
           SampleWorkspace.graph); reflexivity.
Defined.

Lemma getConfigByPath_not_found_witness :
  getConfigByPath (SampleWorkspace.workspace None) SampleWorkspace.graph
    "/ws/libs/ui/cypress.config.ts"
  = Throw (Error
      ("Unable to find the project configuration that includes "
       ++ "libs/ui/cypress.config" ++ ". " ++ Js.nl
       ++ "      Found project name? " ++ "undefined" ++ ". " ++ Js.nl
       ++ "      Graph has data? " ++ "false")).
Proof.
  pose proof (getConfigByPath_not_found (SampleWorkspace.workspace None)
                SampleWorkspace.graph "/ws/libs/ui/cypress.config.ts" true
                {[ "apps/app/cypress.config" := "app" ]}
                eq_refl eq_refl (or_introl eq_refl)) as H.
  vm_compute in H. vm_compute. exact H.
Defined.

Lemma createExecutorContext_spec_witness :
  exists context,
    createExecutorContext (SampleWorkspace.workspace None)
      SampleWorkspace.graph (targets SampleWorkspace.app) (Some "app")
      "e2e" None = Ok context
    /\ ExecutorContext.target context = None
    /\ ExecutorContext.targetName context = "e2e"
    /\ ExecutorContext.configurationName context = None
    /\ ExecutorContext.projectName context = Some "app"
    /\ ExecutorContext.projectGraph context = SampleWorkspace.graph
    /\ ExecutorContext.root context = "/ws"
    /\ ExecutorContext.isVerbose context = false
    /\ forall key,
         ExecutorContext.workspace context !! key
         = match (∅ : gmap string json) !! key with
           | Some value => Some value
           | None => (∅ : gmap string json) !! key
           end.
Proof.
  exact (createExecutorContext_spec (SampleWorkspace.workspace None)
           SampleWorkspace.graph (targets SampleWorkspace.app) (Some "app")
           "e2e" None ∅ ∅ eq_refl eq_refl).
Defined.

Lemma preset_from_graph_witness :
  nxComponentTestingPreset (SampleWorkspace.workspace (Some "app:build"))
    SampleWorkspace.configPath None
  = (Ok {| basePreset := "base preset of /ws/apps/app/cypress.config.ts";
           devServer := {| framework := "react";
                           bundler := "webpack";
                           webpackConfig :=
                             "webpack config of apps/app with babel" |} |},
     []).
Proof.
  eapply (preset_from_graph (SampleWorkspace.workspace (Some "app:build"))
            SampleWorkspace.configPath None SampleWorkspace.graph
            (fst SampleWorkspace.resolved) (snd SampleWorkspace.resolved));
    try solve [reflexivity | discriminate].
Defined.

Lemma withSchemaDefaults_fills_missing_only_witness :
  exists o : WebWebpackExecutorOptions,
    withSchemaDefaults (SampleWorkspace.workspace None) SampleBuild.target
      SampleBuild.context = Ok o
    /\ compiler o = Some "babel"
    /\ memoryLimit o = Some 2048
    /\ optimization o = None.
Proof.
  destruct (withSchemaDefaults_fills_missing_only
              (SampleWorkspace.workspace None) SampleBuild.target
              SampleBuild.context)
    as (o & Hrun & Hcompiler & _ & _ & _ & _ & _ & _ & _ & _ & _ & _ & _ & _
        & Hmemory & _ & _ & _ & _ & Hoptimization & _).
  exists o. repeat split; assumption.
Defined.

(** ** The routing step, continued *)

(** X16: with [bootstrap.ts] in place, a routing file that does not
    exist, or that has no [RouterModule.forRoot(] call, ends the step
    without an error and without a write; the menu of the app template
    is not patched either. *)
Theorem routing_step_skips_in_silence (dk : Devkit) (opts : Schema)
    (ft : FederationType) (t : Tree) (cfg : ProjectConfiguration)
    (src boot : string) :
  projectConfigurationOf dk (files t) (host opts) = Ok cfg ->
  sourceRoot cfg = Some src ->
  files t !! joinPathFragments dk [src; "bootstrap.ts"] = Some boot ->
  (files t !! pathToHostRootRouting cfg
                (negb (Js.includes "bootstrapModule" boot)) = None
   \/ exists routing,
        files t !! pathToHostRootRouting cfg
                     (negb (Js.includes "bootstrapModule" boot)) = Some routing
        /\ Js.includes "RouterModule.forRoot(" routing = false) ->
  exists events : list event,
    addLazyLoadedRouteToHostAppModule dk opts ft t
    = (Ok tt, {| files := files t; journal := journal t ++ events |})
    /\ forallb (fun e => negb (isWrite e)) events = true.
Proof.
  intros Hcfg Hsrc Hboot Hrouting.
  unfold addLazyLoadedRouteToHostAppModule, readProjectConfiguration. mstep.
  rewrite Hcfg. mstep. rewrite Hsrc. mstep. rewrite Hboot. mstep.
  destruct Hrouting as [Hnone | (routing & Hsome & Hno)].
  - rewrite tree_exists_absent by exact Hnone. mstep.
    eexists. rewrite <- !app_assoc. split; reflexivity.
  - rewrite (tree_exists_present _ routing) by exact Hsome. mstep.
    rewrite Hsome. mstep. rewrite Hno. mstep.
    eexists. rewrite <- !app_assoc. split; reflexivity.
Qed.

Lemma routing_step_skips_in_silence_witness :
  exists events : list event,
    addLazyLoadedRouteToHostAppModule Sample.devkit Sample.remote static
      Sample.unroutedHost
    = (Ok tt, {| files := files Sample.unroutedHost;
                 journal := journal Sample.unroutedHost ++ events |})
    /\ forallb (fun e => negb (isWrite e)) events = true.
Proof.
  apply (routing_step_skips_in_silence Sample.devkit Sample.remote static
           Sample.unroutedHost Sample.hostConfiguration "apps/host/src"
           (snd Sample.bootstrapFile)); try reflexivity.
  right. exists "@NgModule({ imports: [BrowserModule] })".
  split; reflexivity.
Defined.

(** X17: a host without [bootstrap.ts] is not skipped in silence.
    Whatever the federation type, the step throws a [TypeError], from
    the test of the [null] read for [bootstrap.ts], before it looks for
    the routing file; it has written nothing. *)
Theorem routing_step_needs_bootstrap (dk : Devkit) (opts : Schema)
    (ft : FederationType) (t : Tree) (cfg : ProjectConfiguration)
    (src : string) :
  projectConfigurationOf dk (files t) (host opts) = Ok cfg ->
  sourceRoot cfg = Some src ->
  files t !! joinPathFragments dk [src; "bootstrap.ts"] = None ->
  addLazyLoadedRouteToHostAppModule dk opts ft t
  = (Throw (TypeError "Cannot read properties of null"),
     {| files := files t;
        journal := journal t
                   ++ [EReadProject (host opts);
                       ERead (joinPathFragments dk [src; "bootstrap.ts"])] |}).
Proof.
  intros Hcfg Hsrc Hboot.
  unfold addLazyLoadedRouteToHostAppModule, readProjectConfiguration. mstep.
  rewrite Hcfg. mstep. rewrite Hsrc. mstep. rewrite Hboot.
  now rewrite <- !app_assoc.
Qed.

Lemma routing_step_needs_bootstrap_witness :
  addLazyLoadedRouteToHostAppModule Sample.devkit Sample.remote dynamic
    Sample.dynamicHost
  = (Throw (TypeError "Cannot read properties of null"),
     {| files := files Sample.dynamicHost;
        journal := journal Sample.dynamicHost
                   ++ [EReadProject (Some "host");
                       ERead "apps/host/src/bootstrap.ts"] |}).
Proof.
  apply (routing_step_needs_bootstrap Sample.devkit Sample.remote dynamic
           Sample.dynamicHost Sample.hostConfiguration "apps/host/src");
    reflexivity.
Defined.

(** X18: a host without an app template is not skipped in silence. When
    the routing step goes through and [app/app.component.html] does not
    exist, the step throws a [TypeError], from the test of the [null]
    read for the template, after the route was written to the routing
    file. *)
Theorem routing_step_throws_without_template
    (dk : Devkit) (opts : Schema) (ft : FederationType) (t : Tree)
    (cfg : ProjectConfiguration) (src boot routing source final : string) :
  projectConfigurationOf dk (files t) (host opts) = Ok cfg ->
  sourceRoot cfg = Some src ->
  files t !! joinPathFragments dk [src; "bootstrap.ts"] = Some boot ->
  files t !! pathToHostRootRouting cfg
               (negb (Js.includes "bootstrapModule" boot)) = Some routing ->
  Js.includes "RouterModule.forRoot(" routing = true ->
  joinPathFragments dk [src; "app/app.component.html"]
  <> pathToHostRootRouting cfg (negb (Js.includes "bootstrapModule" boot)) ->
  files t !! joinPathFragments dk [src; "app/app.component.html"] = None ->
  match ft with
  | dynamic =>
      insertImportText dk routing "loadRemoteModule" "@nrwl/angular/mf"
      = Ok source
  | static => source = routing
  end ->
  (if Js.includes "@NgModule" routing
   then addRouteText dk source (moduleRoute opts ft)
   else addStandaloneRouteText dk source (standaloneRoute opts ft))
  = Ok final ->
  fst (addLazyLoadedRouteToHostAppModule dk opts ft t)
  = Throw (TypeError "Cannot read properties of null")
  /\ files (snd (addLazyLoadedRouteToHostAppModule dk opts ft t))
     = <[pathToHostRootRouting cfg (negb (Js.includes "bootstrapModule" boot))
         := final]> (files t).
Proof.
  intros Hcfg Hsrc Hboot Hrouting HforRoot Hdistinct Hnone Hsource Hfinal.
  assert (Hpatch : forall t1,
            files t1 !! joinPathFragments dk [src; "app/app.component.html"]
            = None ->
            fst (patchAppComponentTemplate dk opts cfg t1)
            = Throw (TypeError "Cannot read properties of null")
            /\ files (snd (patchAppComponentTemplate dk opts cfg t1))
               = files t1).
  { intros t1 H1. unfold patchAppComponentTemplate. mstep.
    rewrite Hsrc. mstep. rewrite H1. split; reflexivity. }
  assert (Hrun : exists t1 : Tree,
            files t1
            = <[pathToHostRootRouting cfg
                  (negb (Js.includes "bootstrapModule" boot)) := final]>
                (files t)
            /\ addLazyLoadedRouteToHostAppModule dk opts ft t
               = patchAppComponentTemplate dk opts cfg t1).
  { unfold addLazyLoadedRouteToHostAppModule, readProjectConfiguration. mstep.
    rewrite Hcfg. mstep. rewrite Hsrc. mstep. rewrite Hboot. mstep.
    rewrite (tree_exists_present _ routing) by exact Hrouting. mstep.
    rewrite Hrouting. mstep. rewrite HforRoot. mstep.
    unfold insertImport, addRoute, addStandaloneRoute. mstep.
    destruct ft.
    - rewrite Hsource. mstep.
      destruct (Js.includes "@NgModule" routing); mstep.
      + rewrite Hfinal. mstep. eexists. split; [| reflexivity].
        cbn [files]. apply insert_insert_eq.
      + rewrite lookup_insert_eq. mstep. rewrite Hfinal. mstep.
        eexists. split; [| reflexivity]. cbn [files]. apply insert_insert_eq.
    - subst source. mstep.
      destruct (Js.includes "@NgModule" routing); mstep.
      + rewrite Hfinal. mstep. eexists. split; [| reflexivity]. reflexivity.
      + rewrite Hrouting. mstep. rewrite Hfinal. mstep.
        eexists. split; [| reflexivity]. reflexivity. }
  destruct Hrun as (t1 & Hfiles & ->).
  destruct (Hpatch t1) as [Hthrow Hsame].
  { rewrite Hfiles. rewrite lookup_insert_ne by (now apply not_eq_sym).
    exact Hnone. }
  split; [exact Hthrow | now rewrite Hsame].
Qed.

Lemma routing_step_throws_without_template_witness :
  fst (addLazyLoadedRouteToHostAppModule Sample.devkit Sample.remote static
         SampleEdge.templatelessHost)
  = Throw (TypeError "Cannot read properties of null")
  /\ files (snd (addLazyLoadedRouteToHostAppModule Sample.devkit Sample.remote
                   static SampleEdge.templatelessHost))
     = <[fst Sample.routedModule
         := snd Sample.routedModule ++ Js.nl ++ moduleRoute Sample.remote static]>
         (files SampleEdge.templatelessHost).
Proof.
  apply (routing_step_throws_without_template Sample.devkit Sample.remote
           static SampleEdge.templatelessHost Sample.hostConfiguration
           "apps/host/src" (snd Sample.bootstrapFile)
           (snd Sample.routedModule) (snd Sample.routedModule));
    solve [reflexivity | discriminate].
Defined.

(** X19: on a static host nothing is rolled back either. Once the
    remotes array is found, the config file holds the spliced text and
    [remotes.d.ts] its old content (none counts as empty) followed by the
    declaration of the remote, whatever the routing step does
    afterwards, even when it throws. *)
Theorem static_host_writes_survive_routing
    (dk : Devkit) (opts : Schema) (t : Tree) (h : string)
    (hostProject : ProjectConfiguration) (src text : string)
    (node : ArrayLiteralExpression) :
  mfType opts = Some mfRemote ->
  host opts = Some h -> h <> "" ->
  (forall fs, projectConfigurationOf dk fs (Some h) = Ok hostProject) ->
  sourceRoot hostProject = Some src ->
  let config :=
    joinPathFragments dk [root hostProject; "module-federation.config.js"] in
  let declarations := joinPathFragments dk [src; "remotes.d.ts"] in
  files t !! joinPathFragments dk [src; "assets/module-federation.manifest.json"]
    = None ->
  config <> "" ->
  files t !! config = Some text ->
  remotesArray dk (Some text) = Ok (Some node) ->
  config <> declarations ->
  (forall p, p = config \/ p = declarations ->
     p <> src ++ "/bootstrap.ts"
     /\ p <> src ++ "/app/app.module.ts"
     /\ p <> joinPathFragments dk [src; "app/app.component.html"]) ->
  files (snd (addRemoteToHost dk opts t)) !! config
  = Some (Js.slice text 0 (getEnd node - 1)
          ++ (if checkIsCommaNeeded (getText node) then "," else "")
          ++ "'" ++ appName opts ++ "',"
          ++ Js.slice_from text (getEnd node - 1))
  /\ files (snd (addRemoteToHost dk opts t)) !! declarations
     = Some (match files t !! declarations with
             | Some old => old
             | None => ""
             end
             ++ Js.nl ++ "declare module '" ++ appName opts ++ "/"
             ++ (if standalone opts then "Routes" else "Module") ++ "';").
Proof.
  intros Hmf Hhost Hne Hcfg Hsrc config declarations Hmanifest Hpath Hfile
    Hnode Hdistinct Hother.
  remember config as c eqn:Hc. remember declarations as d eqn:Hd.
  subst config declarations.
  assert (Hkeeps : forall p, p = c \/ p = d ->
            keeps p (addLazyLoadedRouteToHostAppModule dk opts static)).
  { intros p Hp. apply keeps_addLazyLoadedRouteToHostAppModule.
    intros fs cfg src' Hcfg' Hsrc'. rewrite Hhost, Hcfg in Hcfg'.
    injection Hcfg' as <-. rewrite Hsrc in Hsrc'. injection Hsrc' as <-.
    now apply Hother. }
  assert (Hrun : exists t3 : Tree,
            files t3
            = <[d := match files t !! d with Some old => old | None => "" end
                     ++ declarationLine opts]>
                (<[c := Js.slice text 0 (getEnd node - 1)
                        ++ (if checkIsCommaNeeded (getText node)
                            then "," else "")
                        ++ "'" ++ appName opts ++ "',"
                        ++ Js.slice_from text (getEnd node - 1)]> (files t))
            /\ addRemoteToHost dk opts t
               = addLazyLoadedRouteToHostAppModule dk opts static t3).
  { unfold addRemoteToHost. rewrite (remote_of_host opts h Hmf Hhost Hne).
    unfold readProjectConfiguration at 1, determineHostFederationType. mstep.
    rewrite Hhost, Hcfg. mstep. rewrite Hsrc. mstep.
    rewrite tree_exists_absent by exact Hmanifest. mstep.
    unfold addRemoteToStaticHost. rewrite <- ?Hc, <- ?Hd.
    apply String.eqb_neq in Hpath. rewrite Hpath. mstep.
    rewrite (tree_exists_present _ text) by exact Hfile. mstep.
    rewrite Hfile, Hnode. mstep. rewrite <- ?Hc, <- ?Hd.
    assert (Hdecl : forall new : string,
              <[c := new]> (files t) !! d = files t !! d)
      by (intros new; now apply lookup_insert_ne).
    destruct (files t !! d) as [old|] eqn:Hold.
    - rewrite (tree_exists_present _ old) by (cbn [files]; now rewrite Hdecl).
      mstep. rewrite Hdecl. cbn [Js.ofNullable].
      eexists. split; [| reflexivity]. reflexivity.
    - rewrite tree_exists_absent by (cbn [files]; now rewrite Hdecl).
      mstep. cbn [Js.ofNullable].
      eexists. split; [| reflexivity]. reflexivity. }
  destruct Hrun as (t3 & Hfiles & ->).
  rewrite (Hkeeps c) by now left.
  rewrite (Hkeeps d) by now right.
  rewrite Hfiles, lookup_insert_eq.
  rewrite lookup_insert_ne by (now apply not_eq_sym).
  rewrite lookup_insert_eq. split; reflexivity.
Qed.

Lemma static_host_writes_survive_routing_witness :
  files (snd (addRemoteToHost Sample.devkit Sample.remote Sample.bareHost))
    !! fst Sample.configFile
  = Some (Js.slice (snd Sample.configFile) 0 (44 - 1)
          ++ (if checkIsCommaNeeded "[]" then "," else "")
          ++ "'" ++ "shop" ++ "',"
          ++ Js.slice_from (snd Sample.configFile) (44 - 1))
  /\ files (snd (addRemoteToHost Sample.devkit Sample.remote Sample.bareHost))
       !! "apps/host/src/remotes.d.ts"
     = Some (match files Sample.bareHost !! "apps/host/src/remotes.d.ts" with
             | Some old => old
             | None => ""
             end
             ++ Js.nl ++ "declare module '" ++ "shop" ++ "/"
             ++ (if false then "Routes" else "Module") ++ "';").
Proof.
  apply (static_host_writes_survive_routing Sample.devkit Sample.remote
           Sample.bareHost "host" Sample.hostConfiguration "apps/host/src"
           (snd Sample.configFile) {| getEnd := 44; getText := "[]" |});
    try solve [reflexivity | discriminate | intros; reflexivity].
  intros p [-> | ->]; repeat split; discriminate.
Defined.
